(** * InnerEye: the Soft Dice loss and the synthetic-data training script

    A shallow embedding of

    - [InnerEye/ML/models/losses/soft_dice.py]
      ([synchronize_across_gpus], [SoftDiceLoss.forward_minibatch]), and
    - [InnerEye-Generative/mains/synth_UNet2D_main.py] (the [__main__] block).

    Tensor elements are modelled as real numbers: the development is about
    the arithmetic the loss denotes, not about rounding.  A tensor is a
    shape together with its elements in row-major (contiguous) order. *)

From Stdlib Require Import String ZArith Reals Lra Lia Arith PeanoNat Bool List.
From Stdlib Require Import FunctionalExtensionality.
Import ListNotations.

Open Scope R_scope.

(* ===================================================================== *)
(** * Finite sums *)
(* ===================================================================== *)

(** Sum of the elements of a list. *)
Definition lsum (l : list R) : R := fold_right Rplus 0 l.

(** [tab n f] is the list [f 0; f 1; ...; f (n-1)]. *)
Definition tab (n : nat) (f : nat -> R) : list R := map f (seq 0 n).

(** [rsum f n] is [f 0 + f 1 + ... + f (n-1)]. *)
Definition rsum (f : nat -> R) (n : nat) : R := lsum (tab n f).

(* ===================================================================== *)
(** * Tensors *)
(* ===================================================================== *)

Module Torch.

(** [shape] is [t.shape]; [data] the elements, row-major. *)
Record Tensor : Type := mkTensor { shape : list nat; data : list R }.

(** Number of elements of a shape. *)
Definition numel (s : list nat) : nat := fold_right Nat.mul 1%nat s.

(** A tensor holds exactly [numel shape] elements. *)
Definition wf (t : Tensor) : Prop := length (data t) = numel (shape t).

(** Element at flat (row-major) offset [k]. *)
Definition tget (t : Tensor) (k : nat) : R := nth k (data t) 0.

Definition shape_eqb (s1 s2 : list nat) : bool :=
  if list_eq_dec Nat.eq_dec s1 s2 then true else false.

(** [a * b], [a + b], [a / b] on tensors of one shape (the only use made of
    them by the loss: no broadcasting between tensors takes place). *)
Definition map2 (f : R -> R -> R) (a b : Tensor) : Tensor :=
  mkTensor (shape a) (map (fun p => f (fst p) (snd p)) (combine (data a) (data b))).

Definition tmul : Tensor -> Tensor -> Tensor := map2 Rmult.
Definition tadd : Tensor -> Tensor -> Tensor := map2 Rplus.
Definition tdiv : Tensor -> Tensor -> Tensor := map2 Rdiv.

(** [a + c] and [a / c] for a Python scalar [c]. *)
Definition tadd_scalar (a : Tensor) (c : R) : Tensor :=
  mkTensor (shape a) (map (fun x => x + c) (data a)).

Definition tdiv_scalar (a : Tensor) (c : R) : Tensor :=
  mkTensor (shape a) (map (fun x => x / c) (data a)).

(** [t.unsqueeze(0)]. *)
Definition unsqueeze0 (t : Tensor) : Tensor :=
  mkTensor (1%nat :: shape t) (data t).

(** [torch.sum(t, dim=d)] for one dimension [d]: with
    [shape t = pre ++ n :: post], the element at position [(o, i)] of the
    result is the sum over [j < n] of the element at [(o, j, i)]. *)
Definition sum_dim (d : nat) (t : Tensor) : Tensor :=
  let pre := firstn d (shape t) in
  let n := nth d (shape t) 1%nat in
  let inner := numel (skipn (S d) (shape t)) in
  mkTensor (pre ++ skipn (S d) (shape t))
    (tab (numel pre * inner)
         (fun k => rsum (fun j => tget t ((k / inner * n + j) * inner + k mod inner)) n)).

(** [torch.sum(t, dim=dims)] for an ascending list of distinct dimensions:
    every listed dimension is reduced, the highest first so that the
    numbers of the remaining ones stay valid. *)
Definition sum_dims (dims : list nat) (t : Tensor) : Tensor :=
  fold_left (fun acc d => sum_dim d acc) (rev dims) t.

(** [torch.mean(t)]: the mean of all elements. *)
Definition mean (t : Tensor) : R := lsum (data t) / INR (numel (shape t)).

(** [torch.nn.functional.softmax(t, dim=d)]. *)
Definition softmax (d : nat) (t : Tensor) : Tensor :=
  let n := nth d (shape t) 1%nat in
  let inner := numel (skipn (S d) (shape t)) in
  mkTensor (shape t)
    (tab (length (data t))
         (fun k =>
            exp (tget t k) /
            rsum (fun j => exp (tget t ((k / (n * inner) * n + j) * inner + k mod inner))) n)).

(** [torch.cat(ts, 0)]: [None] when the tensors disagree on the trailing
    dimensions (or when there is nothing to concatenate). *)
Definition cat0 (ts : list Tensor) : option Tensor :=
  match ts with
  | [] => None
  | t0 :: _ =>
      if forallb (fun t => shape_eqb (tl (shape t)) (tl (shape t0))) ts
      then Some (mkTensor (fold_right Nat.add 0%nat (map (fun t => hd 0%nat (shape t)) ts)
                             :: tl (shape t0))
                          (concat (map data ts)))
      else None
  end.

End Torch.
Import Torch.

(* ===================================================================== *)
(** * Python values, exceptions and the effects of the loss *)
(* ===================================================================== *)

(** What a caller can pass for [output] and [target]: a tensor, or any other
    object (of which only the type name matters). *)
Inductive PyObj : Type :=
| ObjTensor (t : Tensor)
| ObjOther (type_name : string).

Definition is_tensor (o : PyObj) : bool :=
  match o with ObjTensor _ => true | ObjOther _ => false end.

Definition type_of (o : PyObj) : string :=
  match o with ObjTensor _ => "torch.Tensor"%string | ObjOther n => n end.

(** Exceptions, with the values their messages are formatted from. *)
Inductive PyError : Type :=
| TypeError (type_output type_target : string)
| ValueErrorDims (output_shape : list nat)
| ValueErrorShapes (output_shape target_shape : list nat)
| RuntimeError (msg : string)
| NameError (name : string)
| IndexError
| SystemExit.

Definition is_TypeError (e : PyError) : bool :=
  match e with TypeError _ _ => true | _ => false end.

Definition is_ValueError (e : PyError) : bool :=
  match e with ValueErrorDims _ | ValueErrorShapes _ _ => true | _ => false end.

(** How a call ends. *)
Inductive Outcome (A : Type) : Type :=
| Returned (a : A)
| Raised (e : PyError).

Arguments Returned {A} a.
Arguments Raised {A} e.

(** Computations of one process: they return, raise, ask whether
    [torch.distributed] is available and initialized, or enter the
    collective [SyncFunction.apply] and continue with what it delivers. *)
Inductive Prog (A : Type) : Type :=
| Ret (a : A)
| Raise (e : PyError)
| DistReady (k : bool -> Prog A)
| AllGather (t : Tensor) (k : Tensor -> Prog A).

Arguments Ret {A} a.
Arguments Raise {A} e.
Arguments DistReady {A} k.
Arguments AllGather {A} t k.

Fixpoint bind {A B : Type} (p : Prog A) (f : A -> Prog B) : Prog B :=
  match p with
  | Ret a => f a
  | Raise e => Raise e
  | DistReady k => DistReady (fun b => bind (k b) f)
  | AllGather t k => AllGather t (fun g => bind (k g) f)
  end.

Declare Scope prog_scope.
Delimit Scope prog_scope with prog.
Notation "x <- p ;; q" := (bind p (fun x => q))
  (at level 61, p at next level, right associativity) : prog_scope.
Open Scope prog_scope.

(* ===================================================================== *)
(** * soft_dice.py *)
(* ===================================================================== *)

Module SoftDice.

(** [synchronize_across_gpus]. *)
Definition synchronize_across_gpus (tensor : Tensor) : Prog Tensor :=
  DistReady (fun ready =>
    if ready then AllGather tensor (fun synced => Ret synced)
    else Ret tensor).

(** The fields set by [SoftDiceLoss.__init__]. *)
Record SoftDiceLoss : Type := mkSoftDiceLoss {
  eps : R;
  apply_softmax : bool;
  class_weight_power : option R
}.

(** [torch.einsum("ij,j->ij", a, b)]: the first operand must have two
    dimensions and the second one; sizes named [j] must agree or be 1. *)
Definition einsum_ij_j_ij (a b : Tensor) : Prog Tensor :=
  match shape a, shape b with
  | [i; j], [j'] =>
      if (j =? j')%nat || (j =? 1)%nat || (j' =? 1)%nat then
        let J := Nat.max j j' in
        Ret (mkTensor [i; J]
               (tab (i * J)
                    (fun k => tget a (k / J * j + (k mod J) mod j) * tget b ((k mod J) mod j'))))
      else Raise (RuntimeError "einsum(): operands do not broadcast")
  | _, _ =>
      Raise (RuntimeError
        "einsum(): the number of subscripts in the equation does not match the number of dimensions")
  end.

(** The local variables of [forward_minibatch] a claim may speak about. *)
Record Locals : Type := mkLocals {
  intersection0 : Tensor;
  intersection : Tensor;
  output_sum_square0 : Tensor;
  output_sum_square : Tensor;
  target_sum_square0 : Tensor;
  target_sum_square : Tensor;
  unsynced : R;
  synced : R
}.

(** The divisor of the unsynced quotient, from the returned locals. *)
Definition denominator0 (self : SoftDiceLoss) (l : Locals) : Tensor :=
  tadd_scalar (tadd (output_sum_square0 l) (target_sum_square0 l)) (eps self).

Section Forward.

(** [InnerEye.ML.utils.image_util.get_class_weights] is imported by
    [soft_dice.py]; it is taken as a parameter. *)
Variable get_class_weights : Tensor -> R -> Tensor.

(** The body of [forward_minibatch] once the arguments are checked. *)
Definition forward_checked (self : SoftDiceLoss) (output0 target : Tensor) : Prog Locals :=
  let output := if apply_softmax self then softmax 1 output0 else output0 in
  let sum_across := 0%nat :: seq 2 (length (shape output) - 2) in
  let intersection0 := unsqueeze0 (sum_dims sum_across (tmul output target)) in
  g <- synchronize_across_gpus intersection0 ;;
  let intersection := sum_dim 0 g in
  intersection <-
    match class_weight_power self with
    | None => Ret intersection
    | Some p =>
        if Req_dec_T p 0 then Ret intersection
        else
          let class_weights0 := unsqueeze0 (get_class_weights target p) in
          class_weights <- synchronize_across_gpus class_weights0 ;;
          let class_weights :=
            tdiv_scalar (sum_dims [0%nat] class_weights)
                        (INR (nth 0 (shape class_weights) 0%nat)) in
          einsum_ij_j_ij intersection class_weights
    end ;;
  let output_sum_square0 := unsqueeze0 (sum_dims sum_across (tmul output output)) in
  g <- synchronize_across_gpus output_sum_square0 ;;
  let output_sum_square := sum_dim 0 g in
  let target_sum_square0 := unsqueeze0 (sum_dims sum_across (tmul target target)) in
  g <- synchronize_across_gpus target_sum_square0 ;;
  let target_sum_square := sum_dim 0 g in
  let unsynced :=
    1 - 2 * mean (tdiv (tadd_scalar intersection0 (eps self))
                       (tadd_scalar (tadd output_sum_square0 target_sum_square0) (eps self))) in
  let synced :=
    1 - 2 * mean (tdiv (tadd_scalar intersection (eps self))
                       (tadd_scalar (tadd output_sum_square target_sum_square) (eps self))) in
  Ret (mkLocals intersection0 intersection output_sum_square0 output_sum_square
                target_sum_square0 target_sum_square unsynced synced).

(** [forward_minibatch], returning all its locals. *)
Definition forward_locals (self : SoftDiceLoss) (output target : PyObj) : Prog Locals :=
  match output, target with
  | ObjTensor o, ObjTensor t =>
      if (length (shape o) <? 3)%nat then Raise (ValueErrorDims (shape o))
      else if negb (shape_eqb (shape o) (shape t))
           then Raise (ValueErrorShapes (shape o) (shape t))
           else forward_checked self o t
  | _, _ => Raise (TypeError (type_of output) (type_of target))
  end.

(** [SoftDiceLoss.forward_minibatch]: it returns [synced]. *)
Definition forward_minibatch (self : SoftDiceLoss) (output target : PyObj) : Prog R :=
  l <- forward_locals self output target ;; Ret (synced l).

End Forward.

End SoftDice.

(* ===================================================================== *)
(** * Running a computation *)
(* ===================================================================== *)


(** What one process sees of [torch.distributed]: whether it is available
    and initialized, and what its [n]-th collective delivers for the local
    tensor it contributes. *)
Record Runtime : Type := mkRuntime {
  dist_ready : bool;
  sync_function : nat -> Tensor -> Tensor
}.

(** Single-device execution: no process group. *)
Definition single_device : Runtime := mkRuntime false (fun _ t => t).


Inductive Event : Type :=
| EvDistReady (answer : bool)
| EvAllGather (local : Tensor).

Definition is_EvDistReady (e : Event) : bool :=
  match e with EvDistReady _ => true | EvAllGather _ => false end.

Definition is_EvAllGather (e : Event) : bool :=
  match e with EvAllGather _ => true | EvDistReady _ => false end.

(** [run_from w n p]: outcome and events of [p] in [w], [n] collectives
    having taken place before.  Entering a collective without a process
    group raises. *)
Fixpoint run_from {A : Type} (w : Runtime) (n : nat) (p : Prog A) : Outcome A * list Event :=
  match p with
  | Ret a => (Returned a, [])
  | Raise e => (Raised e, [])
  | DistReady k =>
      let r := run_from w n (k (dist_ready w)) in
      (fst r, EvDistReady (dist_ready w) :: snd r)
  | AllGather t k =>
      if dist_ready w then
        let r := run_from w (S n) (k (sync_function w n t)) in
        (fst r, EvAllGather t :: snd r)
      else (Raised (RuntimeError "Default process group has not been initialized"),
            [EvAllGather t])
  end.

Definition run {A : Type} (w : Runtime) (p : Prog A) : Outcome A := fst (run_from w 0 p).
Definition events {A : Type} (w : Runtime) (p : Prog A) : list Event := snd (run_from w 0 p).

(** Each call of [synchronize_across_gpus] asks once whether the process
    group is ready, and nothing else does: the calls are the [EvDistReady]
    events.  The collectives are the [EvAllGather] events. *)
Definition sync_calls {A : Type} (w : Runtime) (p : Prog A) : nat :=
  List.length (filter is_EvDistReady (events w p)).

Definition collective_calls {A : Type} (w : Runtime) (p : Prog A) : nat :=
  List.length (filter is_EvAllGather (events w p)).

(** [raises_only Q p]: whatever the runtime answers, every exception [p]
    itself raises satisfies [Q]. *)
Fixpoint raises_only {A : Type} (Q : PyError -> Prop) (p : Prog A) : Prop :=
  match p with
  | Ret _ => True
  | Raise e => Q e
  | DistReady k => forall b, raises_only Q (k b)
  | AllGather _ k => forall g, raises_only Q (k g)
  end.

(** ** A process group running the same code in lockstep *)

(** The local queries of a process of an initialized group, answered until
    it returns, raises or enters a collective. *)
Fixpoint settle {A : Type} (p : Prog A) : Prog A :=
  match p with
  | DistReady k => settle (k true)
  | _ => p
  end.

Definition finished {A : Type} (p : Prog A) : option (Outcome A) :=
  match settle p with
  | Ret a => Some (Returned a)
  | Raise e => Some (Raised e)
  | _ => None
  end.

Definition at_gather {A : Type} (p : Prog A) : option (Tensor * (Tensor -> Prog A)) :=
  match settle p with
  | AllGather t k => Some (t, k)
  | _ => None
  end.

Fixpoint all_some {X : Type} (l : list (option X)) : option (list X) :=
  match l with
  | [] => Some []
  | Some x :: l' => option_map (cons x) (all_some l')
  | None :: _ => None
  end.

(** [spmd p peers]: rank 0 runs [p], the other ranks run [peers].  Every
    collective gathers the tensors of all ranks, in rank order, and
    concatenates them along dimension 0 (as [SyncFunction] does); every rank
    continues with the result.  [None]: the group does not complete (some
    rank is not at the collective, or the tensors cannot be concatenated). *)
Fixpoint spmd {A : Type} (p : Prog A) (peers : list (Prog A)) : option (list (Outcome A)) :=
  match p with
  | Ret a => option_map (cons (Returned a)) (all_some (map finished peers))
  | Raise e => option_map (cons (Raised e)) (all_some (map finished peers))
  | DistReady k => spmd (k true) peers
  | AllGather t k =>
      match all_some (map at_gather peers) with
      | Some tks =>
          match cat0 (t :: map fst tks) with
          | Some g => spmd (k g) (map (fun tk => snd tk g) tks)
          | None => None
          end
      | None => None
      end
  end.

(* ===================================================================== *)
(** * What the loss is claimed to compute *)
(* ===================================================================== *)

Module Dice.

(** For tensors of shape [B x C x spatial...] with [S] spatial positions,
    the element of batch [b], class [c], position [s] is at offset
    [(b * C + c) * S + s]. *)
Definition batch (t : Tensor) : nat := nth 0 (shape t) 0%nat.
Definition classes (t : Tensor) : nat := nth 1 (shape t) 0%nat.
Definition positions (t : Tensor) : nat := numel (skipn 2 (shape t)).

(** The tensor the statistics are taken of: [output] after the optional
    softmax along the class dimension. *)
Definition activated (softmax_on : bool) (output : Tensor) : Tensor :=
  if softmax_on then softmax 1 output else output.

(** Class re-weighting is skipped: [class_weight_power] is [None] or [0.0]. *)
Definition weights_off (class_weight_power : option R) : Prop :=
  class_weight_power = None \/ class_weight_power = Some 0.

(** Sum of [x * y] over the batch and all spatial positions, for class [c];
    the dimensions are those of [x]. *)
Definition S_ (x y : Tensor) (c : nat) : R :=
  rsum (fun b =>
    rsum (fun s => tget x ((b * classes x + c) * positions x + s)
                   * tget y ((b * classes x + c) * positions x + s))
         (positions x))
       (batch x).

(** [1 - 2 * mean over classes of (S_ot + eps) / (S_oo + S_tt + eps)]. *)
Definition loss (eps : R) (output target : Tensor) : R :=
  1 - 2 * (rsum (fun c => (S_ output target c + eps)
                          / (S_ output output c + S_ target target c + eps))
                (classes output)
           / INR (classes output)).

(** The loss as formed from the three gathered statistics. *)
Definition loss_of_gathered (eps : R) (g1 g2 g3 : Tensor) : R :=
  1 - 2 * mean (tdiv (tadd_scalar (sum_dim 0 g1) eps)
                     (tadd_scalar (tadd (sum_dim 0 g2) (sum_dim 0 g3)) eps)).

(** Three synchronizations of given local statistics, then the loss. *)
Definition three_syncs (eps : R) (i0 o0 t0 : Tensor) : Prog R :=
  g1 <- SoftDice.synchronize_across_gpus i0 ;;
  g2 <- SoftDice.synchronize_across_gpus o0 ;;
  g3 <- SoftDice.synchronize_across_gpus t0 ;;
  Ret (loss_of_gathered eps g1 g2 g3).

(** The per-class statistic of one device as the [1 x C] tensor it
    contributes to a collective. *)
Definition row (C : nat) (h : nat -> R) : Tensor := mkTensor [1%nat; C] (tab C h).

(** The same with every sum taken over all the devices of a group. *)
Definition global_S (f : Tensor * Tensor -> nat -> R) (devices : list (Tensor * Tensor))
    (c : nat) : R :=
  lsum (map (fun d => f d c) devices).

Definition global_loss (eps : R) (C : nat) (devices : list (Tensor * Tensor)) : R :=
  1 - 2 * (rsum (fun c =>
                   (global_S (fun d => S_ (fst d) (snd d)) devices c + eps)
                   / (global_S (fun d => S_ (fst d) (fst d)) devices c
                      + global_S (fun d => S_ (snd d) (snd d)) devices c + eps))
                C
           / INR C).

End Dice.

(** ** A small input

    One image, two classes, two positions. *)
Module Sample.

Definition output : Tensor := mkTensor [1; 2; 2]%nat [1; 0; 0; 1].
Definition target : Tensor := mkTensor [1; 2; 2]%nat [1; 1; 0; 0].

(** A second device holding two images. *)
Definition output' : Tensor := mkTensor [2; 2; 1]%nat [1; 0; 1; 1].
Definition target' : Tensor := mkTensor [2; 2; 1]%nat [0; 1; 1; 1].

Definition plain : SoftDice.SoftDiceLoss := SoftDice.mkSoftDiceLoss 1 false None.
Definition weighted : SoftDice.SoftDiceLoss := SoftDice.mkSoftDiceLoss 1 false (Some 1).

(** A stand-in for [get_class_weights] where a concrete one is needed:
    weight 1 for every class. *)
Definition unit_weights (t : Tensor) (_ : R) : Tensor :=
  mkTensor [Dice.classes t] (tab (Dice.classes t) (fun _ => 1)).

End Sample.

(* ===================================================================== *)
(** * synth_UNet2D_main.py *)
(* ===================================================================== *)

Module SynthMain.

Open Scope Z_scope.
Open Scope string_scope.

(** The parsed command line: the options the script declares, [gpus] of
    [Trainer.add_argparse_args] (which the script overwrites), and the
    remaining trainer and model options. *)
Record Args : Type := mkArgs {
  batch_size : Z;
  dataset_path : string;
  csv_base_name : string;
  debug : bool;
  gpu : option Z;
  azureml : bool;
  segStyleGAN_folder : string;
  gpus : option Z;
  other_options : list (string * string)
}.

Definition set_gpus (args : Args) (n : Z) : Args :=
  mkArgs (batch_size args) (dataset_path args) (csv_base_name args) (debug args) (gpu args)
         (azureml args) (segStyleGAN_folder args) (Some n) (other_options args).

(** What [submit_to_azure_if_needed] returns. *)
Record AzureRunInfo : Type := mkAzureRunInfo { input_datasets : list string }.

Inductive Dataset : Type :=
| Prostate2DSimpleDataset (path csv_base_name split : string) (positional_4 : Z)
                          (labels : list string)
| SynthDataset (path split : string) (debug : bool).

(** [Prostate2DSimpleDataset] reads the real, labelled scans; [SynthDataset]
    the generated images and segmentations. *)
Definition is_real_labeled (ds : Dataset) : bool :=
  match ds with Prostate2DSimpleDataset _ _ _ _ _ => true | SynthDataset _ _ _ => false end.

Definition is_synthetic (ds : Dataset) : bool :=
  match ds with SynthDataset _ _ _ => true | Prostate2DSimpleDataset _ _ _ _ _ => false end.

Record DataLoader : Type := mkDataLoader {
  dataset : Dataset;
  loader_batch_size : Z;
  shuffle : bool;
  num_workers : Z
}.

(** A loader draws its samples from the one dataset it wraps. *)
Definition draws_from (dl : DataLoader) (ds : Dataset) : Prop := dataset dl = ds.

Record UNet_multi_val : Type := mkUNet_multi_val { hparams : Args }.

#[local] Set Warnings "-register-all".
Inductive Logger : Type :=
| TensorboardWithImgs (save_dir : string)
| AzureMLLogger
| LoggerCollectionWithImgs (loggers : list Logger).

Record ModelCheckpoint : Type := mkModelCheckpoint {
  dirpath_logger_name : string;
  dirpath_logger_version : Z;
  monitor : string;
  mode : string;
  save_top_k : Z;
  auto_insert_metric_name : bool;
  filename : string
}.

Record Trainer : Type := mkTrainer {
  trainer_args : Args;
  progress_bar_refresh_rate : Z;
  fast_dev_run : bool;
  logger : Logger;
  checkpoint_callback : option bool;
  callbacks : option (list ModelCheckpoint)
}.

(** What the run does to the outside. *)
Inductive Effect : Type :=
| PrintStartTime (date : string) (hour minute : Z)
| PrintLine (line : string)
| SeedEverything (seed : Z)
| SetCudaVisibleDevices (gpu : Z)
| Fit (trainer : Trainer) (model : UNet_multi_val) (train_dataloader : DataLoader)
      (val_dataloaders : list DataLoader).

Definition is_Fit (e : Effect) : bool :=
  match e with Fit _ _ _ _ => true | _ => false end.

(** What the run gets from the outside: the clock, the result of
    [submit_to_azure_if_needed] ([None]: the call ends the process), the name
    and version of the Tensorboard logger. *)
Record External : Type := mkExternal {
  today : string;
  hour : Z;
  minute : Z;
  submit_to_azure_if_needed : option AzureRunInfo;
  logger_name : string;
  logger_version : Z
}.

(** Statements: an outcome and the effects so far. *)
Definition Script (A : Type) : Type := (Outcome A * list Effect)%type.

Definition ret {A : Type} (a : A) : Script A := (Returned a, []).
Definition raise {A : Type} (e : PyError) : Script A := (Raised e, []).
Definition emit (e : Effect) : Script unit := (Returned tt, [e]).

Definition then_ {A B : Type} (p : Script A) (f : A -> Script B) : Script B :=
  match fst p with
  | Returned a => (fst (f a), (snd p ++ snd (f a))%list)
  | Raised e => (Raised e, snd p)
  end.

Declare Scope script_scope.
Delimit Scope script_scope with script.
Notation "x <- p ;; q" := (then_ p (fun x => q))
  (at level 61, p at next level, right associativity) : script_scope.
Notation "p ;; q" := (then_ p (fun _ => q))
  (at level 61, right associativity) : script_scope.
Open Scope script_scope.

(** Reading a global name that may not have been assigned. *)
Definition name {A : Type} (id : string) (binding : option A) : Script A :=
  match binding with
  | Some v => ret v
  | None => raise (NameError id)
  end.

(** [l[i]]. *)
Definition getitem {A : Type} (l : list A) (i : nat) : Script A :=
  match nth_error l i with
  | Some v => ret v
  | None => raise IndexError
  end.

(** The [__main__] block, after [parser.parse_args()]. *)
Definition main (ext : External) (args : Args) : Script unit :=
  emit (PrintStartTime (today ext) (hour ext + 1) (minute ext)) ;;
  emit (PrintLine "-- Starting up") ;;
  emit (SeedEverything 1234) ;;
  let callbacks : list ModelCheckpoint := [] in
  run_info <-
    (if azureml args then
       match submit_to_azure_if_needed ext with
       | Some info => ret (Some info)
       | None => raise SystemExit
       end
     else ret None) ;;
  args <-
    match gpu args with
    | Some g => emit (SetCudaVisibleDevices g) ;; ret (set_gpus args 1)
    | None => ret args
    end ;;
  let model := mkUNet_multi_val args in
  info <- name "run_info" run_info ;;
  path1 <- getitem (input_datasets info) 1 ;;
  let real_val_ds :=
    Prostate2DSimpleDataset path1 (csv_base_name args) "val" 1
                            ["femurs"; "bladder"; "prostate"] in
  info <- name "run_info" run_info ;;
  path0 <- getitem (input_datasets info) 0 ;;
  let train_ds := SynthDataset path0 "train" (debug args) in
  info <- name "run_info" run_info ;;
  path0 <- getitem (input_datasets info) 0 ;;
  let synth_val_ds := SynthDataset path0 "val" (debug args) in
  let train_dl := mkDataLoader train_ds (batch_size args) true 12 in
  let synth_val_dl := mkDataLoader synth_val_ds (batch_size args) false 12 in
  let real_val_dl := mkDataLoader real_val_ds (batch_size args) false 12 in
  let logger := TensorboardWithImgs "./outputs/UNet" in
  let callbacks :=
    (callbacks ++
    [mkModelCheckpoint (logger_name ext) (logger_version ext)
       "mean_DICE/test/dataloader_idx_0" "max" 3 false
       "epoch={epoch}-step={step}-val_loss={val_loss:.2f}-mean_DICE_val={mean_DICE/test:.2f}"])%list in
  let logger :=
    if azureml args then LoggerCollectionWithImgs [logger; AzureMLLogger] else logger in
  (if debug args then
     let trainer := mkTrainer args 20 true logger None None in
     emit (Fit trainer model train_dl [synth_val_dl; real_val_dl])
   else ret tt) ;;
  let trainer :=
    mkTrainer args 20 false logger (Some true)
              (if (0 <? Z.of_nat (List.length callbacks))%Z then Some callbacks else None) in
  emit (Fit trainer model train_dl [synth_val_dl; real_val_dl]).

(** The loaders handed to [trainer.fit] as training loaders. *)
Definition training_loaders (effects : list Effect) : list DataLoader :=
  flat_map (fun e => match e with Fit _ _ train _ => [train] | _ => [] end) effects.

(** The loaders handed to [trainer.fit] as validation loaders. *)
Definition validation_loaders (effects : list Effect) : list (list DataLoader) :=
  flat_map (fun e => match e with Fit _ _ _ vals => [vals] | _ => [] end) effects.

(** ** Sample runs *)

Definition sample_external : External :=
  mkExternal "2022-03-01" 9 30
             (Some (mkAzureRunInfo ["/mnt/synthetic"; "/mnt/prostate"]))
             "default" 0.

Definition sample_args (aml : bool) : Args :=
  mkArgs 32 "" "dataset.csv" false None aml "n_16" None [].

Close Scope script_scope.
Close Scope string_scope.
Close Scope Z_scope.

End SynthMain.

(* ===================================================================== *)
(** * More about soft_dice.py: merged spatial dimensions *)
(* ===================================================================== *)

Module Batch.

(** [t.flatten(2)]: all spatial dimensions merged into one. *)
Definition flatten_spatial (t : Tensor) : Tensor :=
  mkTensor (firstn 2 (shape t) ++ [numel (skipn 2 (shape t))]) (data t).

End Batch.

(** ** A sample with two spatial dimensions

    One image, two classes, 2 x 2 positions. *)
Module Sample2.

Definition output : Tensor :=
  mkTensor [1; 2; 2; 2]%nat [1; 0; 1; 1; 0; 1; 0; 0].
Definition target : Tensor :=
  mkTensor [1; 2; 2; 2]%nat [1; 1; 0; 1; 0; 0; 1; 0].

End Sample2.

(* ===================================================================== *)
(** * Lemmas on finite sums and tabulated lists *)
(* ===================================================================== *)

Section Sums.

Lemma lsum_app (l l' : list R) : lsum (l ++ l') = lsum l + lsum l'.
Proof.
  induction l as [|x l IH]; simpl.
  - lra.
  - rewrite IH. lra.
Qed.

Lemma tab_length n f : List.length (tab n f) = n.
Proof. unfold tab. now rewrite length_map, length_seq. Qed.

Lemma tab_S n f : tab (S n) f = tab n f ++ [f n].
Proof. unfold tab. now rewrite seq_S, map_app. Qed.

Lemma tab_nth n f k d : (k < n)%nat -> nth k (tab n f) d = f k.
Proof.
  intros Hk. unfold tab.
  rewrite (nth_indep _ d (f 0%nat)) by now rewrite length_map, length_seq.
  rewrite map_nth, seq_nth; auto.
Qed.

Lemma tab_ext n f g :
  (forall k, (k < n)%nat -> f k = g k) -> tab n f = tab n g.
Proof.
  intros H. unfold tab. apply map_ext_in.
  intros k Hk. apply in_seq in Hk. apply H. lia.
Qed.

Lemma tab_map n f (h : R -> R) : map h (tab n f) = tab n (fun k => h (f k)).
Proof. unfold tab. now rewrite map_map. Qed.

Lemma tab_combine n f g (h : R -> R -> R) :
  map (fun p => h (fst p) (snd p)) (combine (tab n f) (tab n g))
  = tab n (fun k => h (f k) (g k)).
Proof.
  unfold tab. generalize (seq 0 n) as l.
  induction l as [|k l IH]; simpl; [reflexivity | now rewrite IH].
Qed.

Lemma rsum_0 f : rsum f 0 = 0.
Proof. reflexivity. Qed.

Lemma rsum_S f n : rsum f (S n) = rsum f n + f n.
Proof. unfold rsum. rewrite tab_S, lsum_app. simpl. lra. Qed.

Lemma rsum_1 f : rsum f 1 = f 0%nat.
Proof. rewrite rsum_S, rsum_0. lra. Qed.

Lemma rsum_ext n f g :
  (forall k, (k < n)%nat -> f k = g k) -> rsum f n = rsum g n.
Proof. intros H. unfold rsum. now rewrite (tab_ext n f g). Qed.

Lemma rsum_add f m n :
  rsum f (m + n) = rsum f m + rsum (fun j => f (m + j)%nat) n.
Proof.
  induction n as [|n IH].
  - rewrite Nat.add_0_r, rsum_0. lra.
  - rewrite Nat.add_succ_r, !rsum_S, IH. lra.
Qed.

(** A sum over [a * b] indices is a double sum. *)
Lemma rsum_mul f a b :
  rsum f (a * b) = rsum (fun i => rsum (fun j => f (i * b + j)%nat) b) a.
Proof.
  induction a as [|a IH].
  - reflexivity.
  - rewrite Nat.mul_succ_l, rsum_add, rsum_S, IH. reflexivity.
Qed.

Lemma rsum_nonneg f n :
  (forall k, (k < n)%nat -> 0 <= f k) -> 0 <= rsum f n.
Proof.
  induction n as [|n IH]; intros H.
  - rewrite rsum_0. lra.
  - rewrite rsum_S.
    assert (0 <= rsum f n) by (apply IH; intros; apply H; lia).
    assert (0 <= f n) by (apply H; lia). lra.
Qed.

Lemma rsum_pos f n :
  (0 < n)%nat -> (forall k, (k < n)%nat -> 0 < f k) -> 0 < rsum f n.
Proof.
  intros Hn H. destruct n as [|n]; [lia|].
  rewrite rsum_S.
  assert (0 <= rsum f n) by (apply rsum_nonneg; intros; apply Rlt_le, H; lia).
  assert (0 < f n) by (apply H; lia). lra.
Qed.

Lemma rsum_div f n d : rsum (fun k => f k / d) n = rsum f n / d.
Proof.
  induction n as [|n IH].
  - rewrite !rsum_0. unfold Rdiv. lra.
  - rewrite !rsum_S, IH. unfold Rdiv. lra.
Qed.

(** Peeling the first term off a sum. *)
Lemma rsum_shift f n : rsum f (S n) = f 0%nat + rsum (fun i => f (S i)) n.
Proof.
  change (S n) with (1 + n)%nat. rewrite rsum_add, rsum_1. reflexivity.
Qed.

(** Column [c] of a concatenation of rows of length [C]. *)
Lemma rsum_concat (C c : nat) (ls : list (list R)) :
  Forall (fun l => List.length l = C) ls -> (c < C)%nat ->
  rsum (fun i => nth (i * C + c) (concat ls) 0) (List.length ls)
  = lsum (map (fun l => nth c l 0) ls).
Proof.
  intros Hall Hc. induction Hall as [|l ls Hl _ IH]; simpl.
  - reflexivity.
  - rewrite rsum_shift. simpl. f_equal.
    + rewrite app_nth1 by lia. reflexivity.
    + rewrite <- IH. apply rsum_ext. intros i _.
      rewrite app_nth2 by lia. f_equal. lia.
Qed.

End Sums.

(* ===================================================================== *)
(** * Lemmas on tensors *)
(* ===================================================================== *)

Section TensorLemmas.

Lemma numel_app s s' : numel (s ++ s') = (numel s * numel s')%nat.
Proof.
  induction s as [|n s IH]; simpl.
  - lia.
  - rewrite IH. lia.
Qed.

Lemma shape_eqb_eq s1 s2 : shape_eqb s1 s2 = true <-> s1 = s2.
Proof.
  unfold shape_eqb. destruct (list_eq_dec Nat.eq_dec s1 s2); split; congruence.
Qed.

Lemma shape_eqb_refl s : shape_eqb s s = true.
Proof. now apply shape_eqb_eq. Qed.

(** Elementwise operations read elementwise, also past the end of the data
    when the operation maps [0, 0] to [0]. *)
Lemma nth_map2 (f : R -> R -> R) (a b : list R) k :
  (forall x, f x 0 = 0) -> (forall y, f 0 y = 0) ->
  nth k (map (fun p => f (fst p) (snd p)) (combine a b)) 0 = f (nth k a 0) (nth k b 0).
Proof.
  intros Hr Hl. revert b k.
  induction a as [|x a IH]; intros b k.
  - simpl. destruct k; now rewrite Hl.
  - destruct b as [|y b].
    + simpl. destruct k; now rewrite Hr.
    + destruct k as [|k]; simpl; [reflexivity | apply IH].
Qed.

Lemma tget_tmul a b k : tget (tmul a b) k = tget a k * tget b k.
Proof.
  unfold tget, tmul, map2. simpl.
  apply nth_map2; intros; lra.
Qed.

(** Reducing the last dimension. *)
Lemma sum_dim_last (x : Tensor) (s : list nat) (m : nat) :
  shape x = s ++ [m] ->
  sum_dim (List.length s) x
  = mkTensor s (tab (numel s) (fun k => rsum (fun j => tget x (k * m + j)) m)).
Proof.
  intros Hs. unfold sum_dim. rewrite Hs.
  rewrite firstn_app, firstn_all, Nat.sub_diag. simpl firstn.
  rewrite app_nth2 by lia. rewrite Nat.sub_diag. simpl nth.
  replace (skipn (S (List.length s)) (s ++ [m])) with (@nil nat).
  2:{ symmetry. apply skipn_all2. rewrite length_app. simpl. lia. }
  rewrite !app_nil_r. simpl numel. rewrite Nat.mul_1_r.
  f_equal. apply tab_ext. intros k _. apply rsum_ext. intros j _.
  rewrite Nat.div_1_r, Nat.mod_1_r. f_equal. lia.
Qed.

(** Reducing all the trailing dimensions [sp] of a tabulated tensor, last
    dimension first. *)
Lemma sum_trailing_tab (sp pre : list nat) (f : nat -> R) :
  fold_left (fun acc d => sum_dim d acc) (rev (seq (List.length pre) (List.length sp)))
            (mkTensor (pre ++ sp) (tab (numel (pre ++ sp)) f))
  = mkTensor pre
      (tab (numel pre) (fun k => rsum (fun s => f (k * numel sp + s)%nat) (numel sp))).
Proof.
  revert f. induction sp as [|m sp IH] using rev_ind; intros f.
  - simpl. rewrite app_nil_r. f_equal. apply tab_ext. intros k _.
    rewrite rsum_1. f_equal. lia.
  - rewrite length_app. simpl List.length. rewrite seq_app, rev_app_distr. simpl.
    rewrite app_assoc.
    replace (List.length pre + List.length sp)%nat with (List.length (pre ++ sp))
      by apply length_app.
    rewrite (sum_dim_last _ (pre ++ sp) m) by reflexivity.
    rewrite (tab_ext (numel (pre ++ sp)) _
               (fun k => rsum (fun j => f (k * m + j)%nat) m)).
    2:{ intros k Hk. apply rsum_ext. intros j Hj. unfold tget. simpl.
        apply tab_nth. rewrite numel_app. simpl. nia. }
    rewrite IH. f_equal. apply tab_ext. intros k _.
    rewrite numel_app. simpl numel. rewrite Nat.mul_1_r.
    rewrite rsum_mul. apply rsum_ext. intros i _. apply rsum_ext. intros j _.
    f_equal. lia.
Qed.

(** Reducing all the trailing dimensions [sp], at least one, of any tensor. *)
Lemma sum_trailing (x : Tensor) (pre sp : list nat) :
  shape x = pre ++ sp -> sp <> [] ->
  fold_left (fun acc d => sum_dim d acc) (rev (seq (List.length pre) (List.length sp))) x
  = mkTensor pre
      (tab (numel pre) (fun k => rsum (fun s => tget x (k * numel sp + s)) (numel sp))).
Proof.
  intros Hs Hsp.
  destruct (exists_last Hsp) as [sp' [m ->]].
  rewrite length_app. simpl List.length. rewrite seq_app, rev_app_distr. simpl.
  replace (List.length pre + List.length sp')%nat with (List.length (pre ++ sp'))
    by apply length_app.
  rewrite (sum_dim_last x (pre ++ sp') m) by now rewrite Hs, app_assoc.
  rewrite sum_trailing_tab. f_equal. apply tab_ext. intros k _.
  rewrite numel_app. simpl numel. rewrite Nat.mul_1_r.
  rewrite rsum_mul. apply rsum_ext. intros i _. apply rsum_ext. intros j _.
  f_equal. lia.
Qed.

(** Reducing dimension 0 of a matrix sums its columns. *)
Lemma sum_dim0_matrix (N C : nat) (l : list R) :
  sum_dim 0 (mkTensor [N; C] l)
  = mkTensor [C] (tab C (fun c => rsum (fun i => nth (i * C + c) l 0) N)).
Proof.
  unfold sum_dim. simpl. rewrite Nat.add_0_r, Nat.mul_1_r.
  f_equal. apply tab_ext. intros c Hc. apply rsum_ext. intros i _.
  unfold tget. simpl. f_equal.
  rewrite Nat.div_small, Nat.mod_small by lia. lia.
Qed.

(** [torch.sum(x, dim=[0, 2, ..., n-1])] for [x] of shape [B x C x sp],
    [sp] not empty: per class, the sum over the batch and all positions. *)
Lemma sum_across_classes (n : nat) (x : Tensor) (B C : nat) (sp : list nat) :
  shape x = B :: C :: sp -> sp <> [] -> n = List.length (B :: C :: sp) ->
  sum_dims (0%nat :: seq 2 (n - 2)) x
  = mkTensor [C]
      (tab C (fun c =>
         rsum (fun b => rsum (fun s => tget x ((b * C + c) * numel sp + s)) (numel sp)) B)).
Proof.
  intros Hs Hsp ->. unfold sum_dims. simpl List.length.
  replace (S (S (List.length sp)) - 2)%nat with (List.length sp) by lia.
  simpl rev. rewrite fold_left_app. simpl fold_left.
  change 2%nat with (List.length [B; C]).
  rewrite (sum_trailing x [B; C] sp Hs Hsp).
  rewrite sum_dim0_matrix. f_equal. apply tab_ext. intros c Hc.
  apply rsum_ext. intros b Hb. rewrite tab_nth by (simpl; nia). reflexivity.
Qed.

End TensorLemmas.

(* ===================================================================== *)
(** * The loss on a single device *)
(* ===================================================================== *)

Section SingleDevice.

Import SoftDice.

Variable get_class_weights : Tensor -> R -> Tensor.

(** The statistic tensors: one entry per class. *)
Lemma stat_spec (n : nat) (x y : Tensor) :
  (3 <= List.length (shape x))%nat -> n = List.length (shape x) ->
  sum_dims (0%nat :: seq 2 (n - 2)) (tmul x y)
  = mkTensor [Dice.classes x] (tab (Dice.classes x) (Dice.S_ x y)).
Proof.
  intros Hlen ->.
  destruct (shape x) as [|B [|C [|m sp]]] eqn:Hs; simpl in Hlen; try lia.
  rewrite (sum_across_classes _ (tmul x y) B C (m :: sp));
    [| simpl; now rewrite Hs | discriminate | reflexivity].
  unfold Dice.classes, Dice.S_, Dice.batch, Dice.positions, Dice.classes. rewrite Hs. simpl nth.
  simpl skipn. f_equal. apply tab_ext. intros c _.
  apply rsum_ext. intros b _. apply rsum_ext. intros s _.
  apply tget_tmul.
Qed.

Lemma sum_dim0_unsqueeze (C : nat) (h : nat -> R) :
  sum_dim 0 (unsqueeze0 (mkTensor [C] (tab C h))) = mkTensor [C] (tab C h).
Proof.
  unfold unsqueeze0. simpl. rewrite sum_dim0_matrix. f_equal.
  apply tab_ext. intros c Hc. rewrite rsum_1. simpl. now apply tab_nth.
Qed.

(** The mean of the per-class quotients, for statistics given per class. *)
Lemma mean_quotients (s sb sc : list nat) (C : nat) (a b c : nat -> R) (e : R) :
  mean (tdiv (tadd_scalar (mkTensor s (tab C a)) e)
             (tadd_scalar (tadd (mkTensor sb (tab C b)) (mkTensor sc (tab C c))) e))
  = rsum (fun k => (a k + e) / (b k + c k + e)) C / INR (numel s).
Proof.
  unfold mean, tdiv, tadd, map2, tadd_scalar. simpl.
  rewrite tab_combine, !tab_map, tab_combine. reflexivity.
Qed.

(** With class re-weighting off, the body of [forward_minibatch] makes its
    three synchronization calls and returns; [single_device] runs show every
    local. *)
Lemma forward_checked_single (self : SoftDiceLoss) (o t : Tensor) :
  Dice.weights_off (class_weight_power self) ->
  (3 <= List.length (shape o))%nat -> shape o = shape t ->
  let x := Dice.activated (apply_softmax self) o in
  let C := Dice.classes o in
  let quot := rsum (fun c => (Dice.S_ x t c + eps self)
                             / (Dice.S_ x x c + Dice.S_ t t c + eps self)) C / INR C in
  exists l,
    run_from single_device 0 (forward_checked get_class_weights self o t)
    = (Returned l, [EvDistReady false; EvDistReady false; EvDistReady false])
    /\ intersection0 l = mkTensor [1%nat; C] (tab C (Dice.S_ x t))
    /\ intersection l = mkTensor [C] (tab C (Dice.S_ x t))
    /\ output_sum_square0 l = mkTensor [1%nat; C] (tab C (Dice.S_ x x))
    /\ output_sum_square l = mkTensor [C] (tab C (Dice.S_ x x))
    /\ target_sum_square0 l = mkTensor [1%nat; C] (tab C (Dice.S_ t t))
    /\ target_sum_square l = mkTensor [C] (tab C (Dice.S_ t t))
    /\ unsynced l = 1 - 2 * quot
    /\ synced l = 1 - 2 * quot.
Proof.
  intros Hw Hlen Hsh x C quot.
  assert (Hx : shape x = shape o).
  { unfold x, Dice.activated. destruct (apply_softmax self); reflexivity. }
  assert (HC : Dice.classes x = C) by (unfold Dice.classes; now rewrite Hx).
  assert (HCt : Dice.classes t = C) by (unfold C, Dice.classes; now rewrite Hsh).
  assert (Hi : sum_dims (0%nat :: seq 2 (List.length (shape x) - 2)) (tmul x t)
               = mkTensor [C] (tab C (Dice.S_ x t))).
  { rewrite <- HC. apply stat_spec; [rewrite Hx; exact Hlen | reflexivity]. }
  assert (Ho : sum_dims (0%nat :: seq 2 (List.length (shape x) - 2)) (tmul x x)
               = mkTensor [C] (tab C (Dice.S_ x x))).
  { rewrite <- HC. apply stat_spec; [rewrite Hx; exact Hlen | reflexivity]. }
  assert (Ht : sum_dims (0%nat :: seq 2 (List.length (shape x) - 2)) (tmul t t)
               = mkTensor [C] (tab C (Dice.S_ t t))).
  { rewrite <- HCt. apply stat_spec; [now rewrite <- Hsh | now rewrite Hx, Hsh]. }
  assert (Hnum1 : INR (numel [1%nat; C]) = INR C) by (simpl; f_equal; lia).
  assert (Hnum : INR (numel [C]) = INR C) by (simpl; f_equal; lia).
  unfold forward_checked. fold x.
  destruct self as [e sm cw]. cbn [eps apply_softmax class_weight_power] in *.
  assert (Hfin :
    forall l : Locals,
      l = (let i0 := unsqueeze0 (sum_dims (0%nat :: seq 2 (List.length (shape x) - 2)) (tmul x t)) in
           let o0 := unsqueeze0 (sum_dims (0%nat :: seq 2 (List.length (shape x) - 2)) (tmul x x)) in
           let t0 := unsqueeze0 (sum_dims (0%nat :: seq 2 (List.length (shape x) - 2)) (tmul t t)) in
           mkLocals i0 (sum_dim 0 i0) o0 (sum_dim 0 o0) t0 (sum_dim 0 t0)
             (1 - 2 * mean (tdiv (tadd_scalar i0 e) (tadd_scalar (tadd o0 t0) e)))
             (1 - 2 * mean (tdiv (tadd_scalar (sum_dim 0 i0) e)
                                 (tadd_scalar (tadd (sum_dim 0 o0) (sum_dim 0 t0)) e)))) ->
      intersection0 l = mkTensor [1%nat; C] (tab C (Dice.S_ x t))
      /\ intersection l = mkTensor [C] (tab C (Dice.S_ x t))
      /\ output_sum_square0 l = mkTensor [1%nat; C] (tab C (Dice.S_ x x))
      /\ output_sum_square l = mkTensor [C] (tab C (Dice.S_ x x))
      /\ target_sum_square0 l = mkTensor [1%nat; C] (tab C (Dice.S_ t t))
      /\ target_sum_square l = mkTensor [C] (tab C (Dice.S_ t t))
      /\ unsynced l = 1 - 2 * quot
      /\ synced l = 1 - 2 * quot).
  { intros l ->.
    cbn [intersection0 intersection output_sum_square0 output_sum_square
         target_sum_square0 target_sum_square unsynced synced].
    rewrite Hi, Ho, Ht, !sum_dim0_unsqueeze.
    unfold unsqueeze0. simpl shape. simpl data.
    rewrite !mean_quotients, Hnum1, Hnum. repeat split; reflexivity. }
  destruct Hw as [-> | ->].
  - eexists. split; [reflexivity | apply Hfin; reflexivity].
  - destruct (Req_dec_T 0 0) as [_ | Hne]; [| contradiction].
    eexists. split; [reflexivity | apply Hfin; reflexivity].
Qed.

(** On checked arguments [forward_locals] is [forward_checked]. *)
Lemma forward_locals_checked (self : SoftDiceLoss) (o t : Tensor) :
  (3 <= List.length (shape o))%nat -> shape o = shape t ->
  forward_locals get_class_weights self (ObjTensor o) (ObjTensor t)
  = forward_checked get_class_weights self o t.
Proof.
  intros Hlen Hsh. unfold forward_locals.
  destruct (Nat.ltb_spec (List.length (shape o)) 3) as [H | _]; [lia|].
  rewrite Hsh, shape_eqb_refl. reflexivity.
Qed.

(** Outcome and events of a computation followed by a pure step. *)
Lemma run_from_bind_ret {A B : Type} (w : Runtime) (h : A -> B) (p : Prog A) (n : nat) :
  run_from w n (a <- p ;; Ret (h a))
  = (match fst (run_from w n p) with
     | Returned a => Returned (h a)
     | Raised e => Raised e
     end, snd (run_from w n p)).
Proof.
  revert n. induction p as [a | e | k IH | t k IH]; intros n; simpl.
  - reflexivity.
  - reflexivity.
  - rewrite IH. reflexivity.
  - destruct (dist_ready w); [rewrite IH|]; reflexivity.
Qed.

(** With class re-weighting on, the 1-D [intersection] does not fit the
    subscripts [ij] of the einsum: the forward pass raises. *)
Lemma forward_checked_weighted (self : SoftDiceLoss) (o t : Tensor) (p : R) :
  class_weight_power self = Some p -> p <> 0 ->
  (3 <= List.length (shape o))%nat -> shape o = shape t ->
  run_from single_device 0 (forward_checked get_class_weights self o t)
  = (Raised (RuntimeError
       "einsum(): the number of subscripts in the equation does not match the number of dimensions"),
     [EvDistReady false; EvDistReady false]).
Proof.
  intros Hcw Hp Hlen Hsh.
  set (x := Dice.activated (apply_softmax self) o).
  assert (Hx : shape x = shape o).
  { unfold x, Dice.activated. destruct (apply_softmax self); reflexivity. }
  assert (Hi : sum_dims (0%nat :: seq 2 (List.length (shape x) - 2)) (tmul x t)
               = mkTensor [Dice.classes x] (tab (Dice.classes x) (Dice.S_ x t))).
  { apply stat_spec; [rewrite Hx; exact Hlen | reflexivity]. }
  unfold forward_checked. rewrite Hcw.
  destruct (Req_dec_T p 0) as [Heq | _]; [contradiction|].
  change (if apply_softmax self then softmax 1 o else o) with x.
  rewrite Hi.
  cbn [bind synchronize_across_gpus run_from single_device dist_ready fst snd].
  rewrite sum_dim0_unsqueeze. reflexivity.
Qed.

End SingleDevice.

(* ===================================================================== *)
(** * The loss on a single device: the formula *)
(* ===================================================================== *)

Section FormulaClaims.

Import SoftDice.

Variable get_class_weights : Tensor -> R -> Tensor.

Lemma forward_minibatch_single (self : SoftDiceLoss) (o t : Tensor) :
  Dice.weights_off (class_weight_power self) ->
  (3 <= List.length (shape o))%nat -> shape o = shape t ->
  run single_device (forward_minibatch get_class_weights self (ObjTensor o) (ObjTensor t))
  = Returned (Dice.loss (eps self) (Dice.activated (apply_softmax self) o) t).
Proof.
  intros Hw Hlen Hsh. unfold run, forward_minibatch.
  rewrite run_from_bind_ret, forward_locals_checked by assumption.
  destruct (forward_checked_single get_class_weights self o t Hw Hlen Hsh)
    as (l & Hrun & _ & _ & _ & _ & _ & _ & _ & Hsynced).
  rewrite Hrun. cbn [fst]. rewrite Hsynced. unfold Dice.loss.
  replace (Dice.classes (Dice.activated (apply_softmax self) o)) with (Dice.classes o).
  - reflexivity.
  - unfold Dice.classes, Dice.activated. destruct (apply_softmax self); reflexivity.
Qed.

(** C1.  For tensors [output] and [target] of one shape with at least three
    dimensions, without class re-weighting and on a single device,
    [forward_minibatch] returns
    [1 - 2 * mean_c ((S_ot c + eps) / (S_oo c + S_tt c + eps))], the sums
    being taken per class over the batch and all spatial positions; with
    [apply_softmax] the same holds for the softmax of [output] along
    dimension 1. *)
Theorem forward_minibatch_dice_formula (e : R) (output target : Tensor) :
  (3 <= List.length (shape output))%nat -> shape output = shape target ->
  run single_device
      (forward_minibatch get_class_weights (mkSoftDiceLoss e false None)
                         (ObjTensor output) (ObjTensor target))
  = Returned (Dice.loss e output target)
  /\ run single_device
      (forward_minibatch get_class_weights (mkSoftDiceLoss e true None)
                         (ObjTensor output) (ObjTensor target))
  = Returned (Dice.loss e (softmax 1 output) target).
Proof.
  intros Hlen Hsh. split.
  - apply (forward_minibatch_single (mkSoftDiceLoss e false None)); auto.
    left; reflexivity.
  - apply (forward_minibatch_single (mkSoftDiceLoss e true None)); auto.
    left; reflexivity.
Qed.

End FormulaClaims.

Lemma forward_minibatch_dice_formula_witness :
  run single_device
      (SoftDice.forward_minibatch Sample.unit_weights (SoftDice.mkSoftDiceLoss 1 false None)
                         (ObjTensor Sample.output) (ObjTensor Sample.target))
  = Returned (Dice.loss 1 Sample.output Sample.target)
  /\ run single_device
      (SoftDice.forward_minibatch Sample.unit_weights (SoftDice.mkSoftDiceLoss 1 true None)
                         (ObjTensor Sample.output) (ObjTensor Sample.target))
  = Returned (Dice.loss 1 (softmax 1 Sample.output) Sample.target).
Proof.
  apply (forward_minibatch_dice_formula Sample.unit_weights 1 Sample.output Sample.target).
  - simpl. lia.
  - reflexivity.
Defined.

(** The formula on the sample: both classes have quotient 1/2. *)
Example sample_loss : Dice.loss 1 Sample.output Sample.target = 0.
Proof.
  unfold Dice.loss, Dice.S_, Dice.classes, Dice.batch, Dice.positions, tget, rsum, tab, lsum.
  simpl. lra.
Qed.

(* ===================================================================== *)
(** * Argument checks *)
(* ===================================================================== *)

Section Validation.

Import SoftDice.

Variable get_class_weights : Tensor -> R -> Tensor.

Lemma raises_only_bind {A B : Type} (Q : PyError -> Prop) (p : Prog A) (f : A -> Prog B) :
  raises_only Q p -> (forall a, raises_only Q (f a)) -> raises_only Q (bind p f).
Proof.
  intros Hp Hf. induction p as [a | e | k IH | t k IH]; simpl in *; auto.
Qed.

Lemma raises_only_run {A : Type} (Q : PyError -> Prop) (p : Prog A) (w : Runtime) :
  raises_only Q p -> (forall msg, Q (RuntimeError msg)) ->
  forall n e, fst (run_from w n p) = Raised e -> Q e.
Proof.
  intros Hp HQ. induction p as [a | e' | k IH | t k IH]; simpl in *; intros n e He.
  - discriminate.
  - now inversion He; subst.
  - eapply IH; eauto.
  - destruct (dist_ready w); simpl in He.
    + eapply IH; eauto.
    + inversion He; subst. apply HQ.
Qed.

Lemma raises_only_sync (Q : PyError -> Prop) (t : Tensor) :
  raises_only Q (synchronize_across_gpus t).
Proof. intros [|]; simpl; auto. Qed.

Lemma raises_only_einsum (a b : Tensor) :
  raises_only (fun e => exists msg, e = RuntimeError msg) (einsum_ij_j_ij a b).
Proof.
  unfold einsum_ij_j_ij.
  destruct (shape a) as [|i [|j [|? ?]]]; simpl; eauto.
  destruct (shape b) as [|j' [|? ?]]; simpl; eauto.
  destruct ((j =? j')%nat || (j =? 1)%nat || (j' =? 1)%nat); simpl; eauto.
Qed.

(** Past the checks only a [RuntimeError] can be raised. *)
Lemma raises_only_forward_checked (self : SoftDiceLoss) (o t : Tensor) :
  raises_only (fun e => exists msg, e = RuntimeError msg)
              (forward_checked get_class_weights self o t).
Proof.
  unfold forward_checked.
  apply raises_only_bind; [apply raises_only_sync | intros g1].
  apply raises_only_bind.
  - destruct (class_weight_power self) as [p|]; [| exact I].
    destruct (Req_dec_T p 0); [exact I |].
    apply raises_only_bind; [apply raises_only_sync | intros cw].
    apply raises_only_einsum.
  - intros i.
    apply raises_only_bind; [apply raises_only_sync | intros g2].
    apply raises_only_bind; [apply raises_only_sync | intros g3].
    exact I.
Qed.

Lemma forward_minibatch_checked_runtime_only (self : SoftDiceLoss) (o t : Tensor)
    (w : Runtime) (e : PyError) :
  (3 <= List.length (shape o))%nat -> shape o = shape t ->
  run w (forward_minibatch get_class_weights self (ObjTensor o) (ObjTensor t)) = Raised e ->
  exists msg, e = RuntimeError msg.
Proof.
  intros Hlen Hsh He. unfold run in He.
  refine (raises_only_run (fun e => exists msg, e = RuntimeError msg) _ w _ _ 0%nat e He);
    [| eauto].
  unfold forward_minibatch. rewrite forward_locals_checked by assumption.
  apply raises_only_bind; [apply raises_only_forward_checked | intros l; exact I].
Qed.

(** C8.  [forward_minibatch] raises [TypeError] exactly when [output] or
    [target] is not a tensor; for two tensors it raises [ValueError] exactly
    when [output] has fewer than three dimensions or the shapes differ.  The
    type check comes first, then the number of dimensions, then the equality
    of shapes; a failed check is all the call does: it raises at once,
    before any synchronization or statistic. *)
Theorem forward_minibatch_validation (self : SoftDiceLoss) (output target : PyObj)
    (w : Runtime) :
  let call := forward_minibatch get_class_weights self output target in
  ((exists e, run w call = Raised e /\ is_TypeError e = true)
     <-> (is_tensor output = false \/ is_tensor target = false))
  /\ (forall o t, output = ObjTensor o -> target = ObjTensor t ->
        ((exists e, run w call = Raised e /\ is_ValueError e = true)
           <-> ((List.length (shape o) < 3)%nat \/ shape o <> shape t)))
  /\ (is_tensor output = false \/ is_tensor target = false ->
        call = Raise (TypeError (type_of output) (type_of target)))
  /\ (forall o t, output = ObjTensor o -> target = ObjTensor t ->
        (List.length (shape o) < 3)%nat ->
        call = Raise (ValueErrorDims (shape o)))
  /\ (forall o t, output = ObjTensor o -> target = ObjTensor t ->
        (3 <= List.length (shape o))%nat -> shape o <> shape t ->
        call = Raise (ValueErrorShapes (shape o) (shape t)))
  /\ (forall e, run w call = Raised e -> is_TypeError e || is_ValueError e = true ->
        call = Raise e /\ events w call = []).
Proof.
  intros call.
  assert (Htype : is_tensor output = false \/ is_tensor target = false ->
                  call = Raise (TypeError (type_of output) (type_of target))).
  { intros [H | H]; destruct output, target; try discriminate; reflexivity. }
  assert (Hdims : forall o t, output = ObjTensor o -> target = ObjTensor t ->
                    (List.length (shape o) < 3)%nat ->
                    call = Raise (ValueErrorDims (shape o))).
  { intros o t -> -> H. unfold call, forward_minibatch, forward_locals.
    destruct (Nat.ltb_spec (List.length (shape o)) 3); [reflexivity | lia]. }
  assert (Hshape : forall o t, output = ObjTensor o -> target = ObjTensor t ->
                     (3 <= List.length (shape o))%nat -> shape o <> shape t ->
                     call = Raise (ValueErrorShapes (shape o) (shape t))).
  { intros o t -> -> H Hne. unfold call, forward_minibatch, forward_locals.
    destruct (Nat.ltb_spec (List.length (shape o)) 3); [lia |].
    destruct (shape_eqb (shape o) (shape t)) eqn:E; [| reflexivity].
    apply shape_eqb_eq in E. contradiction. }
  assert (Hok : forall o t e, output = ObjTensor o -> target = ObjTensor t ->
                  (3 <= List.length (shape o))%nat -> shape o = shape t ->
                  run w call = Raised e -> is_TypeError e || is_ValueError e = false).
  { intros o t e -> -> Hlen Hsh He.
    destruct (forward_minibatch_checked_runtime_only self o t w e Hlen Hsh He) as [msg ->].
    reflexivity. }
  assert (Hcases : forall o t, output = ObjTensor o -> target = ObjTensor t ->
            (List.length (shape o) < 3)%nat \/
            ((3 <= List.length (shape o))%nat /\ shape o <> shape t) \/
            ((3 <= List.length (shape o))%nat /\ shape o = shape t)).
  { intros o t _ _. destruct (Nat.lt_ge_cases (List.length (shape o)) 3); auto.
    destruct (list_eq_dec Nat.eq_dec (shape o) (shape t)); auto. }
  repeat split; auto.
  - (* TypeError only without a tensor *)
    intros (e & He & Hty).
    destruct output as [o|no]; [| now left].
    destruct target as [t|nt]; [| now right].
    exfalso.
    destruct (Hcases o t eq_refl eq_refl) as [H | [[H1 H2] | [H1 H2]]].
    + rewrite (Hdims o t eq_refl eq_refl H) in He. inversion He; subst. discriminate.
    + rewrite (Hshape o t eq_refl eq_refl H1 H2) in He. inversion He; subst. discriminate.
    + pose proof (Hok o t e eq_refl eq_refl H1 H2 He) as Hf.
      rewrite Hty in Hf. discriminate.
  - (* no tensor: TypeError *)
    intros H. rewrite (Htype H). eexists. split; reflexivity.
  - (* ValueError only on a failed shape check *)
    intros (e & He & Hv).
    destruct (Hcases o t H H0) as [Hlt | [[H1 H2] | [H1 H2]]]; auto.
    pose proof (Hok o t e H H0 H1 H2 He) as Hf.
    rewrite Hv, orb_true_r in Hf. discriminate.
  - (* failed shape check: ValueError *)
    intros [Hlt | Hne].
    + rewrite (Hdims o t H H0 Hlt). eexists. split; reflexivity.
    + destruct (Nat.lt_ge_cases (List.length (shape o)) 3) as [Hlt | Hge].
      * rewrite (Hdims o t H H0 Hlt). eexists. split; reflexivity.
      * rewrite (Hshape o t H H0 Hge Hne). eexists. split; reflexivity.
  - (* a failed check is the whole call *)
    destruct output as [o|no]; [destruct target as [t|nt] |].
    + destruct (Hcases o t eq_refl eq_refl) as [Hlt | [[H1 H2] | [H1 H2]]].
      * rewrite (Hdims o t eq_refl eq_refl Hlt) in *. now inversion H.
      * rewrite (Hshape o t eq_refl eq_refl H1 H2) in *. now inversion H.
      * rewrite (Hok o t e eq_refl eq_refl H1 H2 H) in H0. discriminate.
    + rewrite Htype in * by now right. now inversion H.
    + rewrite Htype in * by now left. now inversion H.
  - destruct output as [o|no]; [destruct target as [t|nt] |].
    + destruct (Hcases o t eq_refl eq_refl) as [Hlt | [[H1 H2] | [H1 H2]]].
      * rewrite (Hdims o t eq_refl eq_refl Hlt). reflexivity.
      * rewrite (Hshape o t eq_refl eq_refl H1 H2). reflexivity.
      * rewrite (Hok o t e eq_refl eq_refl H1 H2 H) in H0. discriminate.
    + rewrite Htype by now right. reflexivity.
    + rewrite Htype by now left. reflexivity.
Qed.

End Validation.

Lemma forward_minibatch_validation_witness :
  SoftDice.forward_minibatch Sample.unit_weights Sample.plain
      (ObjOther "numpy.ndarray") (ObjTensor Sample.target)
  = Raise (TypeError "numpy.ndarray" "torch.Tensor")
  /\ SoftDice.forward_minibatch Sample.unit_weights Sample.plain
      (ObjTensor (mkTensor [2; 2]%nat [1; 0; 0; 1])) (ObjTensor Sample.target)
  = Raise (ValueErrorDims [2; 2]%nat)
  /\ SoftDice.forward_minibatch Sample.unit_weights Sample.plain
      (ObjTensor Sample.output) (ObjTensor Sample.target')
  = Raise (ValueErrorShapes [1; 2; 2]%nat [2; 2; 1]%nat).
Proof.
  split; [| split].
  - destruct (forward_minibatch_validation Sample.unit_weights Sample.plain
                (ObjOther "numpy.ndarray") (ObjTensor Sample.target) single_device)
      as (_ & _ & Htype & _).
    apply Htype. left. reflexivity.
  - destruct (forward_minibatch_validation Sample.unit_weights Sample.plain
                (ObjTensor (mkTensor [2; 2]%nat [1; 0; 0; 1])) (ObjTensor Sample.target)
                single_device)
      as (_ & _ & _ & Hdims & _).
    apply (Hdims (mkTensor [2; 2]%nat [1; 0; 0; 1]) Sample.target);
      [reflexivity | reflexivity | simpl; lia].
  - destruct (forward_minibatch_validation Sample.unit_weights Sample.plain
                (ObjTensor Sample.output) (ObjTensor Sample.target') single_device)
      as (_ & _ & _ & _ & Hshapes & _).
    apply (Hshapes Sample.output Sample.target');
      [reflexivity | reflexivity | simpl; lia | simpl; discriminate].
Defined.

(* ===================================================================== *)
(** * Synchronization on a single device *)
(* ===================================================================== *)

Section Synchronization.

Import SoftDice.

Variable get_class_weights : Tensor -> R -> Tensor.

(** [class_weight_power = None] and [class_weight_power = 0.0] run the same
    code. *)
Lemma forward_minibatch_power_zero (e : R) (sm : bool) (output target : PyObj) :
  forward_minibatch get_class_weights (mkSoftDiceLoss e sm (Some 0)) output target
  = forward_minibatch get_class_weights (mkSoftDiceLoss e sm None) output target.
Proof.
  unfold forward_minibatch, forward_locals, forward_checked.
  cbn [eps apply_softmax class_weight_power].
  destruct (Req_dec_T 0 0) as [_ | H]; [reflexivity | contradiction].
Qed.

(** On a single device a forward pass that returns ran without class
    re-weighting on checked tensors. *)
Lemma forward_minibatch_returned_inv (self : SoftDiceLoss) (output target : PyObj) (v : R) :
  run single_device (forward_minibatch get_class_weights self output target) = Returned v ->
  exists o t, output = ObjTensor o /\ target = ObjTensor t
              /\ (3 <= List.length (shape o))%nat /\ shape o = shape t
              /\ Dice.weights_off (class_weight_power self).
Proof.
  intros Hv.
  destruct output as [o|]; [| discriminate].
  destruct target as [t|]; [| discriminate].
  exists o, t. split; [reflexivity|]. split; [reflexivity|].
  unfold run, forward_minibatch in Hv. rewrite run_from_bind_ret in Hv. cbn [fst] in Hv.
  unfold forward_locals in Hv.
  destruct (Nat.ltb_spec (List.length (shape o)) 3) as [| Hlen]; [discriminate|].
  destruct (shape_eqb (shape o) (shape t)) eqn:E; [| discriminate].
  apply shape_eqb_eq in E. cbn [negb] in Hv.
  split; [assumption|]. split; [assumption|].
  destruct (class_weight_power self) as [p|] eqn:Hcw; [| now left].
  destruct (Req_dec_T p 0) as [-> | Hp]; [now right|].
  rewrite (forward_checked_weighted get_class_weights self o t p Hcw Hp Hlen E) in Hv.
  discriminate.
Qed.

(** C6.  Without a process group [synchronize_across_gpus] returns its
    argument, and so the [synced] value a forward pass returns is the
    [unsynced] value, the one computed from the local statistics
    [intersection0], [output_sum_square0] and [target_sum_square0] alone. *)
Theorem single_device_synced_is_unsynced (self : SoftDiceLoss) (output target : PyObj)
    (v : R) :
  run single_device (forward_minibatch get_class_weights self output target) = Returned v ->
  (forall x, run_from single_device 0 (synchronize_across_gpus x)
             = (Returned x, [EvDistReady false]))
  /\ exists l,
       run single_device (forward_locals get_class_weights self output target) = Returned l
       /\ synced l = v
       /\ unsynced l = v
       /\ intersection l = sum_dim 0 (intersection0 l)
       /\ data (intersection l) = data (intersection0 l)
       /\ data (output_sum_square l) = data (output_sum_square0 l)
       /\ data (target_sum_square l) = data (target_sum_square0 l)
       /\ unsynced l = 1 - 2 * mean (tdiv (tadd_scalar (intersection0 l) (eps self))
                                          (denominator0 self l)).
Proof.
  intros Hv. split; [reflexivity|].
  destruct (forward_minibatch_returned_inv self output target v Hv)
    as (o & t & -> & -> & Hlen & Hsh & Hw).
  destruct (forward_checked_single get_class_weights self o t Hw Hlen Hsh)
    as (l & Hrun & Hi0 & Hi & Ho0 & Ho & Ht0 & Ht & Hun & Hsy).
  unfold run, forward_minibatch in Hv.
  rewrite run_from_bind_ret, forward_locals_checked, Hrun in Hv by assumption.
  cbn [fst] in Hv. inversion Hv as [Hv'].
  exists l. unfold run. rewrite forward_locals_checked, Hrun by assumption.
  split; [reflexivity|]. split; [reflexivity|]. split; [congruence|].
  split; [rewrite Hi0, Hi; symmetry; apply (sum_dim0_unsqueeze (Dice.classes o)) |].
  split; [now rewrite Hi0, Hi |]. split; [now rewrite Ho0, Ho |].
  split; [now rewrite Ht0, Ht |].
  unfold denominator0. rewrite Hun, Hi0, Ho0, Ht0, mean_quotients.
  do 3 f_equal. simpl. f_equal. lia.
Qed.


End Synchronization.



Lemma single_device_synced_is_unsynced_witness :
  exists l,
    run single_device
        (SoftDice.forward_locals Sample.unit_weights Sample.plain
           (ObjTensor Sample.output) (ObjTensor Sample.target)) = Returned l
    /\ SoftDice.synced l = 0 /\ SoftDice.unsynced l = 0.
Proof.
  assert (H : run single_device
                (SoftDice.forward_minibatch Sample.unit_weights Sample.plain
                   (ObjTensor Sample.output) (ObjTensor Sample.target)) = Returned 0).
  { unfold run. cbn. f_equal.
    unfold mean, tdiv, tadd, tadd_scalar, map2, sum_dim, sum_dims, tmul, map2, unsqueeze0,
      rsum, tab, lsum, tget.
    simpl. lra. }
  destruct (single_device_synced_is_unsynced Sample.unit_weights Sample.plain
              (ObjTensor Sample.output) (ObjTensor Sample.target) 0 H)
    as (_ & l & Hl & Hs & Hu & _).
  exists l. auto.
Defined.

(* ===================================================================== *)
(** * Symmetry, class weights *)
(* ===================================================================== *)

Section Algebra.

Import SoftDice.

Variable get_class_weights : Tensor -> R -> Tensor.

Lemma Forall_tab (P : R -> Prop) (n : nat) (f : nat -> R) :
  (forall k, (k < n)%nat -> P (f k)) -> Forall P (tab n f).
Proof.
  intros H. unfold tab. apply Forall_forall. intros x Hx.
  apply in_map_iff in Hx. destruct Hx as (k & <- & Hk).
  apply in_seq in Hk. apply H. lia.
Qed.

Lemma S_comm (x y : Tensor) (c : nat) :
  shape x = shape y -> Dice.S_ x y c = Dice.S_ y x c.
Proof.
  intros Hs. unfold Dice.S_, Dice.batch, Dice.classes, Dice.positions. rewrite Hs.
  apply rsum_ext. intros b _. apply rsum_ext. intros s _. apply Rmult_comm.
Qed.

(** C10.  Without softmax and class re-weighting, on a single device, the
    loss of checked tensors does not change when [output] and [target] are
    exchanged: the intersection is the same, and the two sums of squares
    exchange their places in a sum. *)
Theorem forward_minibatch_symmetric (e : R) (output target : Tensor) :
  (3 <= List.length (shape output))%nat -> shape output = shape target ->
  run single_device
      (forward_minibatch get_class_weights (mkSoftDiceLoss e false None)
                         (ObjTensor output) (ObjTensor target))
  = run single_device
      (forward_minibatch get_class_weights (mkSoftDiceLoss e false None)
                         (ObjTensor target) (ObjTensor output))
  /\ (exists v, run single_device
        (forward_minibatch get_class_weights (mkSoftDiceLoss e false None)
                           (ObjTensor output) (ObjTensor target)) = Returned v)
  /\ (forall c, Dice.S_ output target c = Dice.S_ target output c)
  /\ (forall c, Dice.S_ output output c + Dice.S_ target target c
                = Dice.S_ target target c + Dice.S_ output output c).
Proof.
  intros Hlen Hsh.
  assert (Hw : Dice.weights_off (class_weight_power (mkSoftDiceLoss e false None)))
    by (left; reflexivity).
  rewrite (forward_minibatch_single get_class_weights _ output target Hw Hlen Hsh).
  rewrite (forward_minibatch_single get_class_weights _ target output Hw);
    [| now rewrite <- Hsh | now symmetry].
  split; [| split; [eexists; reflexivity | split]].
  - f_equal. cbn [eps apply_softmax Dice.activated]. unfold Dice.loss.
    replace (Dice.classes target) with (Dice.classes output)
      by (unfold Dice.classes; now rewrite Hsh).
    do 3 f_equal. apply rsum_ext. intros c _.
    rewrite (S_comm output target c Hsh). f_equal. lra.
  - intros c. now apply S_comm.
  - intros c. apply Rplus_comm.
Qed.

(** C5, at its failing input: with [class_weight_power = 1.0] the forward
    pass on the sample raises at the einsum, after two synchronization
    calls, whatever [get_class_weights] returns. *)
Theorem forward_minibatch_weighted_raises :
  run_from single_device 0
      (forward_minibatch get_class_weights Sample.weighted
                         (ObjTensor Sample.output) (ObjTensor Sample.target))
  = (Raised (RuntimeError
       "einsum(): the number of subscripts in the equation does not match the number of dimensions"),
     [EvDistReady false; EvDistReady false]).
Proof.
  unfold forward_minibatch.
  rewrite run_from_bind_ret, forward_locals_checked; [| simpl; lia | reflexivity].
  rewrite (forward_checked_weighted get_class_weights Sample.weighted
             Sample.output Sample.target 1); [reflexivity | reflexivity | lra | simpl; lia | reflexivity].
Qed.

(** The same for every checked input and every non-zero power. *)
Lemma forward_minibatch_weighted_always_raises (self : SoftDiceLoss) (o t : Tensor) (p : R) :
  class_weight_power self = Some p -> p <> 0 ->
  (3 <= List.length (shape o))%nat -> shape o = shape t ->
  exists msg,
    run single_device (forward_minibatch get_class_weights self (ObjTensor o) (ObjTensor t))
    = Raised (RuntimeError msg).
Proof.
  intros Hcw Hp Hlen Hsh. unfold run, forward_minibatch.
  rewrite run_from_bind_ret, forward_locals_checked by assumption.
  rewrite (forward_checked_weighted get_class_weights self o t p Hcw Hp Hlen Hsh).
  eexists. reflexivity.
Qed.

End Algebra.

Lemma forward_minibatch_symmetric_witness :
  run single_device
      (SoftDice.forward_minibatch Sample.unit_weights (SoftDice.mkSoftDiceLoss 1 false None)
         (ObjTensor Sample.output) (ObjTensor Sample.target))
  = run single_device
      (SoftDice.forward_minibatch Sample.unit_weights (SoftDice.mkSoftDiceLoss 1 false None)
         (ObjTensor Sample.target) (ObjTensor Sample.output)).
Proof.
  destruct (forward_minibatch_symmetric Sample.unit_weights 1 Sample.output Sample.target)
    as (H & _).
  - simpl. lia.
  - reflexivity.
  - exact H.
Defined.

(* ===================================================================== *)
(** * Softmax *)
(* ===================================================================== *)

Section Softmax.

(** Over the reals the entries of a softmax are not negative. *)
Lemma softmax_nonneg (d : nat) (t : Tensor) :
  Forall (fun x => 0 <= x) (data (softmax d t)).
Proof.
  unfold softmax. cbn [data]. apply Forall_tab. intros k _.
  set (s := rsum _ _).
  assert (Hs : 0 <= s).
  { apply rsum_nonneg. intros j _. apply Rlt_le, exp_pos. }
  pose proof (exp_pos (tget t k)) as He.
  destruct Hs as [Hs | <-].
  - apply Rlt_le, Rdiv_lt_0_compat; assumption.
  - unfold Rdiv. rewrite Rinv_0. lra.
Qed.

(** Over the reals the entries of a softmax add up to 1 along the class
    dimension. *)
Lemma softmax_sums_to_one (t : Tensor) (B C : nat) (sp : list nat) (b s : nat) :
  shape t = B :: C :: sp -> wf t ->
  (b < B)%nat -> (s < numel sp)%nat -> (0 < C)%nat ->
  rsum (fun c => tget (softmax 1 t) ((b * C + c) * numel sp + s)) C = 1.
Proof.
  intros Hs Hwf Hb Hsp HC.
  unfold wf in Hwf. rewrite Hs in Hwf. simpl in Hwf.
  set (S := numel sp) in *.
  set (D := rsum (fun j => exp (tget t ((b * C + j) * S + s))) C).
  assert (HD : 0 < D) by (apply rsum_pos; [exact HC | intros; apply exp_pos]).
  rewrite (rsum_ext C _ (fun c => exp (tget t ((b * C + c) * S + s)) / D)).
  - rewrite rsum_div. fold D. unfold Rdiv. apply Rinv_r. lra.
  - intros c Hc. unfold softmax, tget at 1. cbn [data]. rewrite Hs.
    cbn [nth skipn]. fold S.
    assert (Hrow : (b * C + c < B * C)%nat) by nia.
    assert (Hk : ((b * C + c) * S + s < B * (C * S))%nat).
    { apply Nat.lt_le_trans with ((b * C + c + 1) * S)%nat; [lia|].
      rewrite Nat.mul_assoc. apply Nat.mul_le_mono_r. lia. }
    rewrite tab_nth by (rewrite Hwf; exact Hk).
    assert (Hcs : (c * S + s < C * S)%nat).
    { apply Nat.lt_le_trans with ((c + 1) * S)%nat; [lia|].
      apply Nat.mul_le_mono_r. lia. }
    assert (Hdiv : (((b * C + c) * S + s) / (C * S) = b)%nat).
    { symmetry. apply (Nat.div_unique _ _ _ (c * S + s)); [exact Hcs | lia]. }
    assert (Hmod : (((b * C + c) * S + s) mod S = s)%nat).
    { symmetry. apply (Nat.mod_unique _ _ (b * C + c)); lia. }
    rewrite Hdiv, Hmod. reflexivity.
Qed.

Lemma softmax_shape (d : nat) (t : Tensor) : shape (softmax d t) = shape t.
Proof. reflexivity. Qed.

Lemma softmax_wf (d : nat) (t : Tensor) : wf t -> wf (softmax d t).
Proof. unfold wf, softmax. cbn [data shape]. now rewrite tab_length. Qed.

End Softmax.

(* ===================================================================== *)
(** * The loss in a process group *)
(* ===================================================================== *)

Section ProcessGroup.

Import SoftDice.

Variable get_class_weights : Tensor -> R -> Tensor.

Lemma bind_assoc {A B C : Type} (p : Prog A) (f : A -> Prog B) (g : B -> Prog C) :
  bind (bind p f) g = bind p (fun a => bind (f a) g).
Proof.
  induction p as [a | e | k IH | t k IH]; simpl.
  - reflexivity.
  - reflexivity.
  - f_equal. extensionality b. apply IH.
  - f_equal. extensionality x. apply IH.
Qed.

(** Without class re-weighting, the forward pass on checked tensors is
    three synchronizations of the local statistics. *)
Lemma forward_minibatch_as_three_syncs (self : SoftDiceLoss) (o t : Tensor) :
  Dice.weights_off (class_weight_power self) ->
  (3 <= List.length (shape o))%nat -> shape o = shape t ->
  let x := Dice.activated (apply_softmax self) o in
  let C := Dice.classes o in
  forward_minibatch get_class_weights self (ObjTensor o) (ObjTensor t)
  = Dice.three_syncs (eps self) (Dice.row C (Dice.S_ x t)) (Dice.row C (Dice.S_ x x))
                     (Dice.row C (Dice.S_ t t)).
Proof.
  intros Hw Hlen Hsh x C.
  assert (Hx : shape x = shape o).
  { unfold x, Dice.activated. destruct (apply_softmax self); reflexivity. }
  assert (HC : Dice.classes x = C) by (unfold Dice.classes; now rewrite Hx).
  assert (HCt : Dice.classes t = C) by (unfold C, Dice.classes; now rewrite Hsh).
  assert (Hi : unsqueeze0 (sum_dims (0%nat :: seq 2 (List.length (shape x) - 2)) (tmul x t))
               = Dice.row C (Dice.S_ x t)).
  { rewrite <- HC, (stat_spec _ x t); [reflexivity | rewrite Hx; exact Hlen | reflexivity]. }
  assert (Ho : unsqueeze0 (sum_dims (0%nat :: seq 2 (List.length (shape x) - 2)) (tmul x x))
               = Dice.row C (Dice.S_ x x)).
  { rewrite <- HC, (stat_spec _ x x); [reflexivity | rewrite Hx; exact Hlen | reflexivity]. }
  assert (Ht : unsqueeze0 (sum_dims (0%nat :: seq 2 (List.length (shape x) - 2)) (tmul t t))
               = Dice.row C (Dice.S_ t t)).
  { rewrite <- HCt, (stat_spec _ t t); [reflexivity | now rewrite <- Hsh | now rewrite Hx, Hsh]. }
  destruct self as [e sm cw]. cbn [eps apply_softmax class_weight_power] in *.
  assert (Hnone : forward_minibatch get_class_weights (mkSoftDiceLoss e sm cw)
                    (ObjTensor o) (ObjTensor t)
                  = forward_minibatch get_class_weights (mkSoftDiceLoss e sm None)
                      (ObjTensor o) (ObjTensor t)).
  { destruct Hw as [-> | ->]; [reflexivity | apply forward_minibatch_power_zero]. }
  rewrite Hnone. unfold forward_minibatch.
  rewrite forward_locals_checked by assumption.
  unfold forward_checked, Dice.three_syncs. cbn [eps apply_softmax class_weight_power].
  change (if sm then softmax 1 o else o) with x.
  rewrite Hi, Ho, Ht.
  rewrite bind_assoc. f_equal. extensionality g1. cbn [bind].
  rewrite bind_assoc. f_equal. extensionality g2. cbn [bind].
  rewrite bind_assoc. f_equal.
Qed.

Lemma all_some_map {D X : Type} (f : D -> X) (ds : list D) :
  all_some (map (fun d => Some (f d)) ds) = Some (map f ds).
Proof.
  induction ds as [|d ds IH]; simpl; [reflexivity | now rewrite IH].
Qed.

(** One collective of a group whose ranks all synchronize. *)
Lemma spmd_sync_step {A D : Type} (x0 : Tensor) (k0 : Tensor -> Prog A)
    (x : D -> Tensor) (k : D -> Tensor -> Prog A) (ds : list D) :
  spmd (g <- synchronize_across_gpus x0 ;; k0 g)
       (map (fun d => g <- synchronize_across_gpus (x d) ;; k d g) ds)
  = match cat0 (x0 :: map x ds) with
    | Some g => spmd (k0 g) (map (fun d => k d g) ds)
    | None => None
    end.
Proof.
  cbn [synchronize_across_gpus bind spmd]. rewrite map_map.
  cbn [at_gather settle synchronize_across_gpus bind].
  rewrite (all_some_map (fun d => (x d, fun g => bind (Ret g) (k d)))).
  rewrite map_map. cbn [fst].
  destruct (cat0 (x0 :: map (fun d => x d) ds)) as [g|]; [| reflexivity].
  rewrite map_map. reflexivity.
Qed.

Lemma spmd_all_return {A D : Type} (a0 : A) (a : D -> A) (ds : list D) :
  spmd (Ret a0) (map (fun d => Ret (a d)) ds)
  = Some (Returned a0 :: map (fun d => Returned (a d)) ds).
Proof.
  cbn [spmd]. rewrite map_map. cbn [finished settle].
  now rewrite (all_some_map (fun d => Returned (a d))).
Qed.

(** Gathering one [1 x C] row per rank gives the matrix of the rows. *)
Lemma cat0_rows {D : Type} (C : nat) (h : D -> nat -> R) (d0 : D) (ds : list D) :
  cat0 (map (fun d => Dice.row C (h d)) (d0 :: ds))
  = Some (mkTensor [List.length (d0 :: ds); C]
            (concat (map (fun d => tab C (h d)) (d0 :: ds)))).
Proof.
  assert (Hn : forall l : list D,
            fold_right Nat.add 0%nat
              (map (fun t => hd 0%nat (shape t)) (map (fun d => Dice.row C (h d)) l))
            = List.length l).
  { induction l as [|d l IH]; simpl; [reflexivity | now rewrite IH]. }
  assert (Hall : forallb (fun t => shape_eqb (tl (shape t)) (tl (shape (Dice.row C (h d0)))))
                   (map (fun d => Dice.row C (h d)) (d0 :: ds)) = true).
  { apply forallb_forall. intros t Ht.
    apply in_map_iff in Ht. destruct Ht as (d & <- & _). apply shape_eqb_refl. }
  unfold cat0. cbn [map] in *. rewrite Hall.
  f_equal. f_equal.
  - f_equal. apply (Hn (d0 :: ds)).
  - change (concat (map data (map (fun d => Dice.row C (h d)) (d0 :: ds)))
            = concat (map (fun d => tab C (h d)) (d0 :: ds))).
    rewrite map_map. reflexivity.
Qed.

(** Summing the gathered rows over the ranks. *)
Lemma sum_dim0_rows {D : Type} (C : nat) (h : D -> nat -> R) (ds : list D) :
  sum_dim 0 (mkTensor [List.length ds; C] (concat (map (fun d => tab C (h d)) ds)))
  = mkTensor [C] (tab C (fun c => lsum (map (fun d => h d c) ds))).
Proof.
  rewrite sum_dim0_matrix. f_equal. apply tab_ext. intros c Hc.
  rewrite <- (length_map (fun d => tab C (h d)) ds).
  rewrite (rsum_concat C c).
  - rewrite map_map. apply f_equal, map_ext. intros d. now apply tab_nth.
  - apply Forall_forall. intros l Hl. apply in_map_iff in Hl.
    destruct Hl as (d & <- & _). apply tab_length.
  - exact Hc.
Qed.

(** One collective of a group whose ranks all contribute a row. *)
Lemma spmd_sync_rows {A D : Type} (C : nat) (h : D -> nat -> R)
    (k0 : Tensor -> Prog A) (k : D -> Tensor -> Prog A) (d0 : D) (ds : list D) :
  spmd (g <- synchronize_across_gpus (Dice.row C (h d0)) ;; k0 g)
       (map (fun d => g <- synchronize_across_gpus (Dice.row C (h d)) ;; k d g) ds)
  = let g := mkTensor [List.length (d0 :: ds); C]
                      (concat (map (fun d => tab C (h d)) (d0 :: ds))) in
    spmd (k0 g) (map (fun d => k d g) ds).
Proof.
  rewrite (spmd_sync_step (Dice.row C (h d0)) k0 (fun d => Dice.row C (h d)) k ds).
  change (Dice.row C (h d0) :: map (fun d => Dice.row C (h d)) ds)
    with (map (fun d => Dice.row C (h d)) (d0 :: ds)).
  rewrite cat0_rows. reflexivity.
Qed.

(** A group whose ranks all run [three_syncs] on rows: every rank returns
    the loss formed from the statistics summed over the ranks. *)
Lemma spmd_three_syncs {D : Type} (e : R) (C : nat) (h1 h2 h3 : D -> nat -> R)
    (d0 : D) (ds : list D) :
  spmd (Dice.three_syncs e (Dice.row C (h1 d0)) (Dice.row C (h2 d0)) (Dice.row C (h3 d0)))
       (map (fun d => Dice.three_syncs e (Dice.row C (h1 d)) (Dice.row C (h2 d))
                                       (Dice.row C (h3 d))) ds)
  = Some (map (fun _ =>
       Returned (1 - 2 * (rsum (fun c =>
                   (lsum (map (fun d => h1 d c) (d0 :: ds)) + e)
                   / (lsum (map (fun d => h2 d c) (d0 :: ds))
                      + lsum (map (fun d => h3 d c) (d0 :: ds)) + e)) C / INR C)))
     (d0 :: ds)).
Proof.
  unfold Dice.three_syncs.
  rewrite (spmd_sync_rows C h1). cbv zeta.
  rewrite (spmd_sync_rows C h2). cbv zeta.
  rewrite (spmd_sync_rows C h3). cbv zeta.
  rewrite spmd_all_return. unfold Dice.loss_of_gathered.
  rewrite !sum_dim0_rows, mean_quotients.
  replace (INR (numel [C])) with (INR C) by (simpl; f_equal; lia).
  reflexivity.
Qed.

(** C2.  In a process group of [N >= 1] devices, each holding checked
    tensors with the same number [C] of classes, the collective
    concatenating the devices' [1 x C] statistics along dimension 0: every
    device returns the same loss, formed from the intersections and sums of
    squares summed over all devices before the division and the mean over
    classes. *)
Theorem spmd_forward_minibatch_global (self : SoftDiceLoss)
    (d0 : Tensor * Tensor) (ds : list (Tensor * Tensor)) (C : nat) :
  Dice.weights_off (class_weight_power self) ->
  (forall d, In d (d0 :: ds) ->
     (3 <= List.length (shape (fst d)))%nat /\ shape (fst d) = shape (snd d)
     /\ Dice.classes (fst d) = C) ->
  let call := fun d : Tensor * Tensor =>
    forward_minibatch get_class_weights self (ObjTensor (fst d)) (ObjTensor (snd d)) in
  let fed := fun d : Tensor * Tensor =>
    (Dice.activated (apply_softmax self) (fst d), snd d) in
  (1 <= List.length (d0 :: ds))%nat
  /\ spmd (call d0) (map call ds)
     = Some (map (fun _ => Returned (Dice.global_loss (eps self) C (map fed (d0 :: ds))))
                 (d0 :: ds)).
Proof.
  intros Hw Hvalid call fed. split; [simpl; lia|].
  set (x := fun d : Tensor * Tensor => Dice.activated (apply_softmax self) (fst d)).
  assert (Hcall : forall d, In d (d0 :: ds) ->
            call d = Dice.three_syncs (eps self)
                       (Dice.row C (Dice.S_ (x d) (snd d)))
                       (Dice.row C (Dice.S_ (x d) (x d)))
                       (Dice.row C (Dice.S_ (snd d) (snd d)))).
  { intros d Hd. destruct (Hvalid d Hd) as (Hlen & Hsh & HC).
    unfold call. rewrite forward_minibatch_as_three_syncs by assumption.
    rewrite HC. reflexivity. }
  rewrite (Hcall d0) by (left; reflexivity).
  rewrite (map_ext_in call _ ds (fun d Hd => Hcall d (or_intror Hd))).
  rewrite (spmd_three_syncs (eps self) C
             (fun d => Dice.S_ (x d) (snd d)) (fun d => Dice.S_ (x d) (x d))
             (fun d => Dice.S_ (snd d) (snd d)) d0 ds).
  unfold Dice.global_loss, Dice.global_S.
  f_equal. apply map_ext. intros _. f_equal.
  assert (Hsum : forall F G : nat -> R, (forall c, F c = G c) ->
                   1 - 2 * (rsum F C / INR C) = 1 - 2 * (rsum G C / INR C)).
  { intros F G HFG. now rewrite (rsum_ext C F G) by (intros; apply HFG). }
  apply Hsum. intros c. rewrite !map_map. reflexivity.
Qed.

End ProcessGroup.

Lemma spmd_forward_minibatch_global_witness :
  spmd (SoftDice.forward_minibatch Sample.unit_weights Sample.plain
          (ObjTensor Sample.output) (ObjTensor Sample.target))
       [SoftDice.forward_minibatch Sample.unit_weights Sample.plain
          (ObjTensor Sample.output') (ObjTensor Sample.target')]
  = Some [Returned (Dice.global_loss 1 2 [(Sample.output, Sample.target);
                                          (Sample.output', Sample.target')]);
          Returned (Dice.global_loss 1 2 [(Sample.output, Sample.target);
                                          (Sample.output', Sample.target')])].
Proof.
  apply (spmd_forward_minibatch_global Sample.unit_weights Sample.plain
           (Sample.output, Sample.target) [(Sample.output', Sample.target')] 2).
  - left. reflexivity.
  - intros d [<- | [<- | []]]; simpl; repeat split; lia.
Defined.

(** The group loss on the two sample devices: the per-class quotients are
    [(2 + 1) / (3 + 3 + 1)] and [(1 + 1) / (2 + 2 + 1)]. *)
Example sample_global_loss :
  Dice.global_loss 1 2 [(Sample.output, Sample.target); (Sample.output', Sample.target')]
  = 1 - (3 / 7 + 2 / 5).
Proof.
  unfold Dice.global_loss, Dice.global_S, Dice.S_, Dice.classes, Dice.batch, Dice.positions,
    tget, rsum, tab, lsum.
  simpl. lra.
Qed.

(* ===================================================================== *)
(** * The training script *)
(* ===================================================================== *)

Section Script.

Import SynthMain.

(** C9.  Without [--azureml] the run ends with [NameError] for [run_info],
    which only the [if args.azureml] branch assigns and the construction of
    [real_val_ds] reads; no [trainer.fit] has been called by then. *)
Theorem main_without_azureml_name_error (ext : External) (args : Args) :
  azureml args = false ->
  fst (main ext args) = Raised (NameError "run_info")
  /\ training_loaders (snd (main ext args)) = []
  /\ forall e, In e (snd (main ext args)) -> is_Fit e = false.
Proof.
  destruct args as [bs dp csv dbg g aml seg gp rest]. cbn [azureml].
  intros ->. unfold main. cbn [azureml gpu].
  destruct g as [g|]; cbn.
  - repeat split. intros e [<- | [<- | [<- | [<- | []]]]]; reflexivity.
  - repeat split. intros e [<- | [<- | [<- | []]]]; reflexivity.
Qed.

(** With [--azureml], inside the submitted run, the script reaches
    [trainer.fit]: once, or twice with [--debug]. *)
Lemma main_with_azureml (ext : External) (args : Args) (path0 path1 : string)
    (more : list string) :
  azureml args = true ->
  submit_to_azure_if_needed ext = Some (mkAzureRunInfo (path0 :: path1 :: more)) ->
  let train_dl :=
    mkDataLoader (SynthDataset path0 "train" (debug args)) (batch_size args) true 12 in
  let synth_val_dl :=
    mkDataLoader (SynthDataset path0 "val" (debug args)) (batch_size args) false 12 in
  let real_val_dl :=
    mkDataLoader (Prostate2DSimpleDataset path1 (csv_base_name args) "val" 1
                    ["femurs"; "bladder"; "prostate"]%string)
                 (batch_size args) false 12 in
  fst (main ext args) = Returned tt
  /\ training_loaders (snd (main ext args))
     = (if debug args then [train_dl; train_dl] else [train_dl])
  /\ validation_loaders (snd (main ext args))
     = (if debug args then [[synth_val_dl; real_val_dl]; [synth_val_dl; real_val_dl]]
        else [[synth_val_dl; real_val_dl]]).
Proof.
  destruct args as [bs dp csv dbg g aml seg gp rest]. cbn [azureml debug batch_size csv_base_name].
  intros -> Hsub. unfold main. cbn [azureml gpu]. rewrite Hsub.
  destruct g as [g|]; destruct dbg; cbn; repeat split.
Qed.

(** C7, as the code has it.  In a run that reaches [trainer.fit], every
    training loader draws from the synthetic dataset only
    ([SynthDataset] over [input_datasets[0]], split [train]); the real
    labelled dataset ([Prostate2DSimpleDataset] over [input_datasets[1]]) is
    drawn from by the second validation loader only. *)
Theorem training_loader_is_synthetic (ext : External) (args : Args)
    (path0 path1 : string) (more : list string) :
  azureml args = true ->
  submit_to_azure_if_needed ext = Some (mkAzureRunInfo (path0 :: path1 :: more)) ->
  training_loaders (snd (main ext args)) <> []
  /\ (forall dl, In dl (training_loaders (snd (main ext args))) ->
        draws_from dl (SynthDataset path0 "train" (debug args))
        /\ forall ds, draws_from dl ds -> is_synthetic ds = true /\ is_real_labeled ds = false)
  /\ (forall vals, In vals (validation_loaders (snd (main ext args))) ->
        exists synth_val_dl real_val_dl,
          vals = [synth_val_dl; real_val_dl]
          /\ draws_from synth_val_dl (SynthDataset path0 "val" (debug args))
          /\ draws_from real_val_dl
               (Prostate2DSimpleDataset path1 (csv_base_name args) "val" 1
                  ["femurs"; "bladder"; "prostate"]%string)).
Proof.
  intros Haml Hsub.
  destruct (main_with_azureml ext args path0 path1 more Haml Hsub) as (_ & Htrain & Hval).
  rewrite Htrain, Hval. split; [| split].
  - destruct (debug args); discriminate.
  - intros dl Hin.
    assert (Hdl : dl = mkDataLoader (SynthDataset path0 "train" (debug args))
                         (batch_size args) true 12).
    { destruct (debug args); simpl in Hin; intuition congruence. }
    subst dl. split; [reflexivity|].
    intros ds <-. split; reflexivity.
  - intros vals Hin.
    exists (mkDataLoader (SynthDataset path0 "val" (debug args)) (batch_size args) false 12),
           (mkDataLoader (Prostate2DSimpleDataset path1 (csv_base_name args) "val" 1
                            ["femurs"; "bladder"; "prostate"]%string)
                         (batch_size args) false 12).
    split; [| split; reflexivity].
    destruct (debug args); simpl in Hin; intuition congruence.
Qed.

End Script.

Lemma main_without_azureml_name_error_witness :
  fst (SynthMain.main SynthMain.sample_external (SynthMain.sample_args false))
  = Raised (NameError "run_info").
Proof.
  apply (main_without_azureml_name_error SynthMain.sample_external
           (SynthMain.sample_args false)).
  reflexivity.
Defined.

Lemma training_loader_is_synthetic_witness :
  SynthMain.training_loaders
    (snd (SynthMain.main SynthMain.sample_external (SynthMain.sample_args true))) <> [].
Proof.
  apply (training_loader_is_synthetic SynthMain.sample_external (SynthMain.sample_args true)
           "/mnt/synthetic" "/mnt/prostate" []).
  - reflexivity.
  - reflexivity.
Defined.

(** C7, as stated, fails: on the sample run the loader handed to
    [trainer.fit] for training draws from no real labelled dataset. *)
Lemma training_loader_mixes_real_data_fails :
  ~ (forall dl,
       In dl (SynthMain.training_loaders
                (snd (SynthMain.main SynthMain.sample_external (SynthMain.sample_args true)))) ->
       (exists ds, SynthMain.draws_from dl ds /\ SynthMain.is_synthetic ds = true)
       /\ (exists ds, SynthMain.draws_from dl ds /\ SynthMain.is_real_labeled ds = true)).
Proof.
  intros H.
  destruct (H (SynthMain.mkDataLoader (SynthMain.SynthDataset "/mnt/synthetic" "train" false)
                 32 true 12)) as (_ & ds & Hds & Hreal).
  - left. reflexivity.
  - unfold SynthMain.draws_from in Hds. simpl in Hds. subst ds. discriminate.
Qed.

(* ===================================================================== *)
(** * Class re-weighting switched on *)
(* ===================================================================== *)

Section Weighted.

Import SoftDice.

Variable get_class_weights : Tensor -> R -> Tensor.

Lemma activated_shape (sm : bool) (o : Tensor) : shape (Dice.activated sm o) = shape o.
Proof. destruct sm; reflexivity. Qed.

Lemma activated_classes (sm : bool) (o : Tensor) :
  Dice.classes (Dice.activated sm o) = Dice.classes o.
Proof. unfold Dice.classes. now rewrite activated_shape. Qed.

(** X4.  With a non-zero [class_weight_power], on a single device, the
    forward pass of checked tensors never returns a loss: after the two
    synchronization calls for the intersection and the class weights it
    raises [RuntimeError] at the einsum, whatever [get_class_weights]
    returned. *)
Theorem weighted_forward_never_returns (self : SoftDiceLoss) (o t : Tensor) (p : R) :
  class_weight_power self = Some p -> p <> 0 ->
  (3 <= List.length (shape o))%nat -> shape o = shape t ->
  let call := forward_minibatch get_class_weights self (ObjTensor o) (ObjTensor t) in
  (exists msg, run single_device call = Raised (RuntimeError msg))
  /\ sync_calls single_device call = 2%nat
  /\ collective_calls single_device call = 0%nat.
Proof.
  intros Hcw Hp Hlen Hsh call.
  unfold call, run, sync_calls, collective_calls, events, forward_minibatch.
  rewrite run_from_bind_ret, forward_locals_checked by assumption.
  rewrite (forward_checked_weighted get_class_weights self o t p Hcw Hp Hlen Hsh).
  cbn. split; [eexists; reflexivity | split; reflexivity].
Qed.

End Weighted.

(* ===================================================================== *)
(** * A process group of one device *)
(* ===================================================================== *)

Section GroupOfOne.

Import SoftDice.

Variable get_class_weights : Tensor -> R -> Tensor.

(** What every rank of a group returns. *)
Lemma spmd_forward_value (self : SoftDiceLoss)
    (d0 : Tensor * Tensor) (ds : list (Tensor * Tensor)) (C : nat) :
  Dice.weights_off (class_weight_power self) ->
  (forall d, In d (d0 :: ds) ->
     (3 <= List.length (shape (fst d)))%nat /\ shape (fst d) = shape (snd d)
     /\ Dice.classes (fst d) = C) ->
  spmd (forward_minibatch get_class_weights self (ObjTensor (fst d0)) (ObjTensor (snd d0)))
       (map (fun d => forward_minibatch get_class_weights self
                        (ObjTensor (fst d)) (ObjTensor (snd d))) ds)
  = Some (map (fun _ => Returned
                 (Dice.global_loss (eps self) C
                    (map (fun d => (Dice.activated (apply_softmax self) (fst d), snd d))
                         (d0 :: ds))))
              (d0 :: ds)).
Proof.
  intros Hw Hvalid.
  set (call := fun d : Tensor * Tensor =>
         forward_minibatch get_class_weights self (ObjTensor (fst d)) (ObjTensor (snd d))).
  set (x := fun d : Tensor * Tensor => Dice.activated (apply_softmax self) (fst d)).
  assert (Hcall : forall d, In d (d0 :: ds) ->
            call d = Dice.three_syncs (eps self)
                       (Dice.row C (Dice.S_ (x d) (snd d)))
                       (Dice.row C (Dice.S_ (x d) (x d)))
                       (Dice.row C (Dice.S_ (snd d) (snd d)))).
  { intros d Hd. destruct (Hvalid d Hd) as (Hlen & Hsh & HC).
    unfold call. rewrite (forward_minibatch_as_three_syncs get_class_weights) by assumption.
    rewrite HC. reflexivity. }
  change (spmd (call d0) (map call ds) = Some (map (fun _ => Returned
            (Dice.global_loss (eps self) C (map (fun d => (x d, snd d)) (d0 :: ds))))
            (d0 :: ds))).
  rewrite (Hcall d0) by (left; reflexivity).
  rewrite (map_ext_in call _ ds (fun d Hd => Hcall d (or_intror Hd))).
  rewrite (spmd_three_syncs (eps self) C
             (fun d => Dice.S_ (x d) (snd d)) (fun d => Dice.S_ (x d) (x d))
             (fun d => Dice.S_ (snd d) (snd d)) d0 ds).
  unfold Dice.global_loss, Dice.global_S.
  f_equal. apply map_ext. intros _. f_equal.
  assert (Hsum : forall F G : nat -> R, (forall c, F c = G c) ->
                   1 - 2 * (rsum F C / INR C) = 1 - 2 * (rsum G C / INR C)).
  { intros F G HFG. now rewrite (rsum_ext C F G) by (intros; apply HFG). }
  apply Hsum. intros c. rewrite !map_map. reflexivity.
Qed.

(** X6.  A process group of a single device returns what the device
    returns without a process group. *)
Theorem group_of_one_is_single_device (self : SoftDiceLoss) (o t : Tensor) :
  Dice.weights_off (class_weight_power self) ->
  (3 <= List.length (shape o))%nat -> shape o = shape t ->
  spmd (forward_minibatch get_class_weights self (ObjTensor o) (ObjTensor t)) []
  = Some [run single_device
            (forward_minibatch get_class_weights self (ObjTensor o) (ObjTensor t))].
Proof.
  intros Hw Hlen Hsh.
  rewrite (forward_minibatch_single get_class_weights self o t Hw Hlen Hsh).
  pose proof (spmd_forward_value self (o, t) [] (Dice.classes o) Hw) as H.
  cbn [fst snd map] in H. rewrite H.
  - do 3 f_equal. unfold Dice.global_loss, Dice.global_S, Dice.loss. cbn [map lsum fold_right fst snd].
    rewrite activated_classes.
    do 2 f_equal. f_equal. apply rsum_ext. intros c _. f_equal; lra.
  - intros d [<- | []]. cbn [fst snd]. auto.
Qed.

End GroupOfOne.

(* ===================================================================== *)
(** * More on the training script *)
(* ===================================================================== *)

Section ScriptRuns.

Import SynthMain.

Ltac script_cases args ext :=
  destruct args as [bs dp csv dbg g aml seg gp rest];
  destruct ext as [day hr mn sub lname lver];
  cbn [azureml debug gpu gpus batch_size csv_base_name submit_to_azure_if_needed] in *.

(** X9.  [trainer.fit] is reached only if [--azureml] is given and
    [submit_to_azure_if_needed] has returned a run info with at least two
    input datasets; and a run that reaches the end of the script has called
    [trainer.fit]. *)
Theorem main_trains_only_with_run_info (ext : External) (args : Args) :
  (training_loaders (snd (main ext args)) <> [] ->
     azureml args = true
     /\ exists info, submit_to_azure_if_needed ext = Some info
                     /\ (2 <= List.length (input_datasets info))%nat)
  /\ (fst (main ext args) = Returned tt ->
        training_loaders (snd (main ext args)) <> []).
Proof.
  script_cases args ext. unfold main. cbn [azureml gpu submit_to_azure_if_needed].
  destruct aml; [destruct sub as [[[|p0 [|p1 more]]]|] |];
    destruct g as [g|]; destruct dbg; cbn; split;
    try (intros H; exfalso; now apply H);
    try discriminate;
    try (intros _; discriminate);
    try (intros _; split; [reflexivity | eexists; split; [reflexivity | cbn; lia]]).
Qed.

(** X10.  When the run info names fewer than two input datasets, the
    script ends with [IndexError] while building its datasets, before any
    [trainer.fit]. *)
Theorem main_index_error (ext : External) (args : Args) (info : AzureRunInfo) :
  azureml args = true ->
  submit_to_azure_if_needed ext = Some info ->
  (List.length (input_datasets info) < 2)%nat ->
  fst (main ext args) = Raised IndexError
  /\ training_loaders (snd (main ext args)) = [].
Proof.
  script_cases args ext. intros -> -> Hlen.
  destruct info as [[|p0 [|p1 more]]]; cbn in Hlen; try lia;
    unfold main; cbn [azureml gpu submit_to_azure_if_needed];
    destruct g as [g|]; cbn; split; reflexivity.
Qed.

(** X11.  In a run that trains, [--debug] adds a fit with
    [fast_dev_run = True] and no callbacks and does not replace the full
    fit: the full fit follows, on the same model and loaders.  The full
    trainer always has [fast_dev_run = False] and exactly the one
    [ModelCheckpoint] (so [callbacks = None] is never passed), and every
    fitted trainer logs to Tensorboard and to AzureML. *)
Theorem main_fits (ext : External) (args : Args) (path0 path1 : string)
    (more : list string) :
  azureml args = true ->
  submit_to_azure_if_needed ext = Some (mkAzureRunInfo (path0 :: path1 :: more)) ->
  exists dev full model train vals checkpoint,
    filter is_Fit (snd (main ext args))
    = (if debug args then [Fit dev model train vals] else []) ++ [Fit full model train vals]
    /\ fast_dev_run dev = true /\ callbacks dev = None /\ checkpoint_callback dev = None
    /\ fast_dev_run full = false /\ callbacks full = Some [checkpoint]
    /\ checkpoint_callback full = Some true
    /\ monitor checkpoint = "mean_DICE/test/dataloader_idx_0"%string
    /\ mode checkpoint = "max"%string /\ save_top_k checkpoint = 3%Z
    /\ dirpath_logger_name checkpoint = logger_name ext
    /\ dirpath_logger_version checkpoint = logger_version ext
    /\ logger dev = LoggerCollectionWithImgs [TensorboardWithImgs "./outputs/UNet"; AzureMLLogger]
    /\ logger full = logger dev
    /\ trainer_args dev = trainer_args full.
Proof.
  intros Haml Hsub.
  set (args' := match gpu args with Some _ => set_gpus args 1 | None => args end).
  set (lg := LoggerCollectionWithImgs [TensorboardWithImgs "./outputs/UNet"; AzureMLLogger]).
  set (ck := mkModelCheckpoint (logger_name ext) (logger_version ext)
               "mean_DICE/test/dataloader_idx_0" "max" 3 false
               "epoch={epoch}-step={step}-val_loss={val_loss:.2f}-mean_DICE_val={mean_DICE/test:.2f}").
  exists (mkTrainer args' 20 true lg None None),
         (mkTrainer args' 20 false lg (Some true) (Some [ck])),
         (mkUNet_multi_val args'),
         (mkDataLoader (SynthDataset path0 "train" (debug args)) (batch_size args) true 12),
         [mkDataLoader (SynthDataset path0 "val" (debug args)) (batch_size args) false 12;
          mkDataLoader (Prostate2DSimpleDataset path1 (csv_base_name args) "val" 1
                          ["femurs"; "bladder"; "prostate"]%string)
                       (batch_size args) false 12],
         ck.
  subst args' lg ck. revert Haml Hsub.
  script_cases args ext. intros -> ->.
  unfold main. cbn [azureml gpu submit_to_azure_if_needed].
  destruct g as [g|]; destruct dbg; cbn; repeat split.
Qed.

(** X12.  [--gpu g] sets [CUDA_VISIBLE_DEVICES] to [g] and overwrites
    [args.gpus] with 1 before the model is built, also in a run that later
    fails; without [--gpu] the variable is not set and [gpus] stays as
    parsed.  The model and every trainer are built from the same, possibly
    overwritten, arguments. *)
Theorem main_gpu (ext : External) (args : Args) :
  azureml args = false \/ submit_to_azure_if_needed ext <> None ->
  (forall g, In (SetCudaVisibleDevices g) (snd (main ext args)) <-> gpu args = Some g)
  /\ (forall tr model train vals,
        In (Fit tr model train vals) (snd (main ext args)) ->
        hparams model = trainer_args tr
        /\ gpus (trainer_args tr)
           = match gpu args with Some _ => Some 1%Z | None => gpus args end
        /\ gpu (trainer_args tr) = gpu args).
Proof.
  script_cases args ext. intros Hpast.
  assert (Hsub : aml = true -> exists info, sub = Some info).
  { intros ->. destruct Hpast as [H | H]; [discriminate|].
    destruct sub as [info|]; [eauto | contradiction]. }
  unfold main. cbn [azureml gpu submit_to_azure_if_needed].
  destruct aml.
  - destruct (Hsub eq_refl) as ([[|p0 [|p1 more]]] & ->);
      destruct g as [g|]; destruct dbg; cbn; split;
      try (intros g'; split;
           [ intros H; repeat (destruct H as [H | H]; try discriminate; try contradiction);
             try (inversion H; reflexivity)
           | intros H; try discriminate; inversion H; subst; tauto ]);
      intros tr m train vals H;
      repeat (destruct H as [H | H]; try discriminate; try contradiction);
      inversion H; subst; cbn; repeat split.
  - destruct g as [g|]; cbn; split;
      try (intros g'; split;
           [ intros H; repeat (destruct H as [H | H]; try discriminate; try contradiction);
             try (inversion H; reflexivity)
           | intros H; try discriminate; inversion H; subst; tauto ]);
      intros tr m train vals H;
      repeat (destruct H as [H | H]; try discriminate; try contradiction).
Qed.

End ScriptRuns.

(* ===================================================================== *)
(** * Class weights left out, spatial dimensions merged *)
(* ===================================================================== *)

Section WeightsAndLayout.

Import SoftDice.

(** X13.  [class_weight_power = 0.0] runs the same code as [None], on every
    input; and with either, [get_class_weights] is not consulted: two
    different functions in its place give the same computation. *)
Theorem weights_off_ignores_class_weights
    (gcw gcw' : Tensor -> R -> Tensor) (self : SoftDiceLoss) (output target : PyObj) :
  Dice.weights_off (class_weight_power self) ->
  forward_minibatch gcw self output target = forward_minibatch gcw' self output target
  /\ forward_minibatch gcw self output target
     = forward_minibatch gcw (mkSoftDiceLoss (eps self) (apply_softmax self) None)
                         output target.
Proof.
  intros Hw. destruct self as [e sm cw]. cbn [eps apply_softmax class_weight_power] in *.
  destruct Hw as [-> | ->].
  - split; reflexivity.
  - rewrite !forward_minibatch_power_zero. split; reflexivity.
Qed.

Variable get_class_weights : Tensor -> R -> Tensor.

Lemma flatten_S (x y : Tensor) (c : nat) :
  (3 <= List.length (shape x))%nat ->
  Dice.S_ (Batch.flatten_spatial x) (Batch.flatten_spatial y) c = Dice.S_ x y c.
Proof.
  intros Hlen.
  destruct (shape x) as [|B [|C [|m sp]]] eqn:Hs; simpl in Hlen; try lia.
  unfold Dice.S_, Dice.batch, Dice.classes, Dice.positions, Batch.flatten_spatial, tget.
  cbn [shape data]. rewrite Hs. cbn [firstn skipn app nth].
  replace (numel [numel (m :: sp)]) with (numel (m :: sp)) by (simpl; lia).
  reflexivity.
Qed.

Lemma flatten_softmax (x : Tensor) :
  (3 <= List.length (shape x))%nat ->
  softmax 1 (Batch.flatten_spatial x) = Batch.flatten_spatial (softmax 1 x).
Proof.
  intros Hlen.
  destruct (shape x) as [|B [|C [|m sp]]] eqn:Hs; simpl in Hlen; try lia.
  unfold softmax, Batch.flatten_spatial. cbn [shape data]. rewrite Hs.
  cbn [firstn skipn app nth].
  replace (numel [numel (m :: sp)]) with (numel (m :: sp)) by (simpl; lia).
  reflexivity.
Qed.

Lemma flatten_loss (e : R) (sm : bool) (o t : Tensor) :
  (3 <= List.length (shape o))%nat -> shape o = shape t ->
  Dice.loss e (Dice.activated sm (Batch.flatten_spatial o)) (Batch.flatten_spatial t)
  = Dice.loss e (Dice.activated sm o) t.
Proof.
  intros Hlen Hsh.
  assert (Hact : Dice.activated sm (Batch.flatten_spatial o)
                 = Batch.flatten_spatial (Dice.activated sm o)).
  { destruct sm; cbn [Dice.activated]; [now apply flatten_softmax | reflexivity]. }
  rewrite Hact.
  assert (Hx : (3 <= List.length (shape (Dice.activated sm o)))%nat)
    by now rewrite activated_shape.
  assert (Ht : (3 <= List.length (shape t))%nat) by now rewrite <- Hsh.
  unfold Dice.loss.
  replace (Dice.classes (Batch.flatten_spatial (Dice.activated sm o)))
    with (Dice.classes (Dice.activated sm o)).
  - do 2 f_equal. f_equal. apply rsum_ext. intros c _.
    now rewrite !flatten_S.
  - unfold Dice.classes, Batch.flatten_spatial. cbn [shape].
    destruct (shape (Dice.activated sm o)) as [|B [|C [|m sp]]]; simpl in Hx; try lia.
    reflexivity.
Qed.

(** X15.  The loss sees the spatial dimensions only as one list of
    positions: merging them into a single dimension in both [output] and
    [target] leaves the returned value unchanged. *)
Theorem loss_of_flattened (self : SoftDiceLoss) (o t : Tensor) :
  Dice.weights_off (class_weight_power self) ->
  (3 <= List.length (shape o))%nat -> shape o = shape t ->
  run single_device
      (forward_minibatch get_class_weights self
         (ObjTensor (Batch.flatten_spatial o)) (ObjTensor (Batch.flatten_spatial t)))
  = run single_device
      (forward_minibatch get_class_weights self (ObjTensor o) (ObjTensor t))
  /\ List.length (shape (Batch.flatten_spatial o)) = 3%nat.
Proof.
  intros Hw Hlen Hsh.
  assert (Hlen3 : List.length (shape (Batch.flatten_spatial o)) = 3%nat).
  { unfold Batch.flatten_spatial. cbn [shape].
    destruct (shape o) as [|B [|C [|m sp]]]; simpl in Hlen; try lia. reflexivity. }
  split; [| exact Hlen3].
  rewrite (forward_minibatch_single get_class_weights self o t Hw Hlen Hsh).
  rewrite (forward_minibatch_single get_class_weights self _ _ Hw);
    [| rewrite Hlen3; lia | unfold Batch.flatten_spatial; cbn [shape]; now rewrite Hsh].
  now rewrite flatten_loss.
Qed.

End WeightsAndLayout.

(* ===================================================================== *)
(** * The theorems above on the samples *)
(* ===================================================================== *)

Lemma weighted_forward_never_returns_witness :
  sync_calls single_device
    (SoftDice.forward_minibatch Sample.unit_weights Sample.weighted
       (ObjTensor Sample.output) (ObjTensor Sample.target)) = 2%nat.
Proof.
  apply (weighted_forward_never_returns Sample.unit_weights Sample.weighted
           Sample.output Sample.target 1).
  - reflexivity.
  - lra.
  - simpl. lia.
  - reflexivity.
Defined.

Lemma group_of_one_is_single_device_witness :
  spmd (SoftDice.forward_minibatch Sample.unit_weights Sample.plain
          (ObjTensor Sample.output) (ObjTensor Sample.target)) []
  = Some [run single_device
            (SoftDice.forward_minibatch Sample.unit_weights Sample.plain
               (ObjTensor Sample.output) (ObjTensor Sample.target))].
Proof.
  apply (group_of_one_is_single_device Sample.unit_weights Sample.plain
           Sample.output Sample.target).
  - left. reflexivity.
  - simpl. lia.
  - reflexivity.
Defined.

Lemma main_trains_only_with_run_info_witness :
  SynthMain.azureml (SynthMain.sample_args true) = true
  /\ exists info,
       SynthMain.submit_to_azure_if_needed SynthMain.sample_external = Some info
       /\ (2 <= List.length (SynthMain.input_datasets info))%nat.
Proof.
  apply (main_trains_only_with_run_info SynthMain.sample_external
           (SynthMain.sample_args true)).
  cbn. discriminate.
Defined.

Lemma main_index_error_witness :
  fst (SynthMain.main
         (SynthMain.mkExternal "2022-03-01" 9 30
            (Some (SynthMain.mkAzureRunInfo ["/mnt/synthetic"%string])) "default" 0)
         (SynthMain.sample_args true))
  = Raised IndexError.
Proof.
  apply (main_index_error
           (SynthMain.mkExternal "2022-03-01" 9 30
              (Some (SynthMain.mkAzureRunInfo ["/mnt/synthetic"%string])) "default" 0)
           (SynthMain.sample_args true)
           (SynthMain.mkAzureRunInfo ["/mnt/synthetic"%string])).
  - reflexivity.
  - reflexivity.
  - simpl. lia.
Defined.

Lemma main_fits_witness :
  exists full model train vals,
    filter SynthMain.is_Fit
      (snd (SynthMain.main SynthMain.sample_external (SynthMain.sample_args true)))
    = [SynthMain.Fit full model train vals]
    /\ SynthMain.fast_dev_run full = false.
Proof.
  destruct (main_fits SynthMain.sample_external (SynthMain.sample_args true)
              "/mnt/synthetic" "/mnt/prostate" [] eq_refl eq_refl)
    as (dev & full & model & train & vals & ck & Hfits & _ & _ & _ & Hfull & _).
  exists full, model, train, vals. split; [exact Hfits | exact Hfull].
Defined.

Lemma main_gpu_witness :
  In (SynthMain.SetCudaVisibleDevices 0)
     (snd (SynthMain.main SynthMain.sample_external
             (SynthMain.mkArgs 32 "" "dataset.csv" false (Some 0%Z) false "n_16" None []))).
Proof.
  destruct (main_gpu SynthMain.sample_external
              (SynthMain.mkArgs 32 "" "dataset.csv" false (Some 0%Z) false "n_16" None []))
    as [Henv _].
  - left. reflexivity.
  - apply Henv. reflexivity.
Defined.

Lemma weights_off_ignores_class_weights_witness :
  SoftDice.forward_minibatch Sample.unit_weights Sample.plain
    (ObjTensor Sample.output) (ObjTensor Sample.target)
  = SoftDice.forward_minibatch (fun t _ => t) Sample.plain
      (ObjTensor Sample.output) (ObjTensor Sample.target).
Proof.
  apply (weights_off_ignores_class_weights Sample.unit_weights (fun t _ => t) Sample.plain
           (ObjTensor Sample.output) (ObjTensor Sample.target)).
  left. reflexivity.
Defined.

Lemma loss_of_flattened_witness :
  run single_device
      (SoftDice.forward_minibatch Sample.unit_weights Sample.plain
         (ObjTensor (mkTensor [1; 2; 4]%nat [1; 0; 1; 1; 0; 1; 0; 0]))
         (ObjTensor (mkTensor [1; 2; 4]%nat [1; 1; 0; 1; 0; 0; 1; 0])))
  = run single_device
      (SoftDice.forward_minibatch Sample.unit_weights Sample.plain
         (ObjTensor Sample2.output) (ObjTensor Sample2.target)).
Proof.
  apply (loss_of_flattened Sample.unit_weights Sample.plain Sample2.output Sample2.target).
  - left. reflexivity.
  - simpl. lia.
  - reflexivity.
Defined.
